(** * Expense tracker: the offline-first expense screen

    A shallow embedding of the React Native component [App] of the
    expense screen that synchronises with a backend (the variant with
    [checkNetworkStatus], [syncWithBackend] and [retrySync]), and the
    properties of its handlers.

    How the component is read.  [App] is a function component: each
    render binds [expenses], [isOnline], [title], [amount] and [category]
    to the values of that render, and every handler created by the render
    closes over these constants.  A setter ([setExpenses], [setIsOnline],
    ...) stores the value for the next render; it never changes what the
    running handler reads.  The embedding keeps the two apart: the render
    is a read-only record, the stored values are part of the world that
    the handlers thread. *)

From Stdlib Require Import String Ascii List ZArith QArith Bool Arith Lia.
From Stdlib Require Import DecimalString.
Import ListNotations.
Close Scope Q_scope.
Open Scope string_scope.
Open Scope list_scope.

(** ** JavaScript values used by the component *)

Module Js.

(** A [number]: finite values are kept as reduced fractions; rounding to
    binary64 is modelled only where it changes a comparison with zero or
    finiteness (overflow to Infinity, underflow to zero). *)
Inductive number :=
| NaN
| Infinity (negative : bool)
| Finite (q : Q).

Definition isNaN (x : number) : bool :=
  match x with NaN => true | _ => false end.

(** [x <= 0] *)
Definition le0 (x : number) : bool :=
  match x with
  | NaN => false
  | Infinity negative => negative
  | Finite q => Qle_bool q 0
  end.

Definition isFinite (x : number) : bool :=
  match x with Finite _ => true | _ => false end.

(** White space and line terminators among the code units below 256:
    TAB, LF, VT, FF, CR, SP and NBSP. *)
Definition isWhiteSpace (c : ascii) : bool :=
  let n := nat_of_ascii c in
  ((9 <=? n)%nat && (n <=? 13)%nat) || (n =? 32)%nat || (n =? 160)%nat.

Fixpoint trimStart (s : string) : string :=
  match s with
  | EmptyString => EmptyString
  | String c r => if isWhiteSpace c then trimStart r else s
  end.

Fixpoint trimEnd (s : string) : string :=
  match s with
  | EmptyString => EmptyString
  | String c r =>
      match trimEnd r with
      | EmptyString => if isWhiteSpace c then EmptyString else String c EmptyString
      | r' => String c r'
      end
  end.

(** [s.trim()] *)
Definition trim (s : string) : string := trimEnd (trimStart s).

(** Truthiness of a string: only the empty string is falsy. *)
Definition truthy (s : string) : bool :=
  match s with EmptyString => false | _ => true end.

(** *** [parseFloat] *)

Definition digit (c : ascii) : option Z :=
  let n := nat_of_ascii c in
  if ((48 <=? n)%nat && (n <=? 57)%nat)%bool then Some (Z.of_nat (n - 48)) else None.

(** The longest run of decimal digits at the head of [s]: its value
    appended to [acc], how many digits were read, and the rest. *)
Fixpoint takeDigits (s : string) (acc : Z) (count : nat) : Z * nat * string :=
  match s with
  | EmptyString => (acc, count, s)
  | String c r =>
      match digit c with
      | Some d => takeDigits r (10 * acc + d) (S count)
      | None => (acc, count, s)
      end
  end.

(** The exponent part [e[+-]digits] when [s] starts with one, else 0. *)
Definition exponentPart (s : string) : Z :=
  match s with
  | String c r =>
      if (Ascii.eqb c "e" || Ascii.eqb c "E")%bool then
        match r with
        | String "+" r' =>
            let '(v, n, _) := takeDigits r' 0 0 in
            match n with O => 0 | _ => v end
        | String "-" r' =>
            let '(v, n, _) := takeDigits r' 0 0 in
            match n with O => 0 | _ => - v end
        | _ =>
            let '(v, n, _) := takeDigits r 0 0 in
            match n with O => 0 | _ => v end
        end
      else 0
  | EmptyString => 0
  end%Z.

(** The number value of the non-negative decimal [m * 10^e], with the
    sign applied after rounding: at or above 2^1024 - 2^970 the nearest
    binary64 is Infinity, at or below 2^-1075 it is zero. *)
Definition roundDecimal (negative : bool) (m e : Z) : number :=
  let q : Q :=
    if (0 <=? e)%Z then inject_Z (m * 10 ^ e)
    else Qmake m (Z.to_pos (10 ^ (- e))) in
  if Qle_bool (inject_Z (2 ^ 1024 - 2 ^ 970)) q then Infinity negative
  else if Qle_bool q (Qmake 1 (Z.to_pos (2 ^ 1075))) then Finite 0
  else Finite (Qred (if negative then Qopp q else q)).

Definition unsignedLiteral (negative : bool) (s : string) : number :=
  if String.prefix "Infinity" s then Infinity negative
  else
    let '(vi, ni, r1) := takeDigits s 0 0 in
    let '(v, nf, r2) :=
      match r1 with
      | String "." r => takeDigits r vi 0
      | _ => (vi, O, r1)
      end in
    match ni, nf with
    | O, O => NaN
    | _, _ => roundDecimal negative v (exponentPart r2 - Z.of_nat nf)
    end.

(** [parseFloat(s)]: leading white space is skipped, then the longest
    prefix that is a decimal literal is converted; [NaN] when there is
    none. *)
Definition parseFloat (s : string) : number :=
  match trimStart s with
  | String "+" r => unsignedLiteral false r
  | String "-" r => unsignedLiteral true r
  | r => unsignedLiteral false r
  end.

(** What a numeric field of a record holds: a number, or [null]. *)
Inductive value :=
| Num (n : number)
| Null.

(** [JSON.parse(JSON.stringify(x))] of a numeric field: a finite number
    comes back, a non-finite one is written as [null]. *)
Definition throughJson (x : value) : value :=
  match x with
  | Num (Finite q) => Num (Finite q)
  | _ => Null
  end.

(** [n.toString()] of a non-negative integer. *)
Definition toString (n : N) : string := NilZero.string_of_uint (N.to_uint n).

(** [s.substr(start, length)] for non-negative arguments. *)
Definition substr (start length : nat) (s : string) : string :=
  String.substring start length s.

End Js.

Coercion Js.Num : Js.number >-> Js.value.

(** ** Data model *)

(** [interface Expense]; [synced] and [backendId] are optional fields. *)
Module Expense.
Record t := mk {
  id : string;
  title : string;
  amount : Js.value;
  category : string;
  date : string;
  synced : option bool;
  backendId : option Z
}.

(** [!exp.synced]: the field is absent or false. *)
Definition unsynced (exp : t) : bool :=
  match synced exp with Some true => false | _ => true end.

(** [{ ...expense, synced: true }] *)
Definition markSynced (exp : t) : t :=
  mk (id exp) (title exp) (amount exp) (category exp) (date exp)
     (Some true) (backendId exp).

(** [{ ...exp, synced: true, backendId: json.id }] *)
Definition confirm (jsonId : option Z) (exp : t) : t :=
  mk (id exp) (title exp) (amount exp) (category exp) (date exp)
     (Some true) jsonId.

(** [JSON.parse(JSON.stringify(exp))]: strings, booleans, integers and
    absent fields come back as they were; the amount goes through
    [Js.throughJson]. *)
Definition throughJson (exp : t) : t :=
  mk (id exp) (title exp) (Js.throughJson (amount exp)) (category exp)
     (date exp) (synced exp) (backendId exp).
End Expense.

(** The values one render of [App] binds with [useState]. *)
Record Render := mkRender {
  expenses : list Expense.t;
  title : string;
  amount : string;
  category : string;
  isOnline : bool;
  isLoading : bool
}.

(** The body of a response, as far as the component reads it:
    [json.status], [json.expenseList], [json.id] and [json.message]. *)
Record Json := mkJson {
  status : bool;
  expenseList : option (list Expense.t);
  jsonId : option Z;
  message : option string
}.

(** A response that arrived: [response.ok], and what [response.json()]
    resolves to ([None] when it rejects). *)
Record Response := mkResponse {
  ok : bool;
  body : option Json
}.

(** How a [fetch] settles. *)
Inductive Fetched :=
| Rejected
| Arrived (response : Response).

(** [expenseToDelete.backendId || id]: the identifier sent with a delete. *)
Inductive DeleteId :=
| ByBackendId (n : Z)
| ById (s : string).

Inductive AlertType := SUCCESS | DANGER | WARNING.

(** What a handler does to the outside, in the order it happens; console
    output and the opening of the dialog are left out. *)
Inductive Event :=
| Probe                                   (* the GET of [checkNetworkStatus] *)
| LoadExpenses                            (* GET /ExpenseTracker/LoadExpenses *)
| SaveExpenses (expense : Expense.t)      (* POST /ExpenseTracker/SaveExpenses *)
| DeleteExpenses (deleteId : DeleteId)    (* DELETE /ExpenseTracker/DeleteExpenses *)
| SetItem (value : list Expense.t)        (* AsyncStorage.setItem(STORAGE_KEY, ...) *)
| GetItem                                 (* AsyncStorage.getItem(STORAGE_KEY) *)
| ToastShow (type : AlertType) (toastTitle textBody : string)
| DialogHide.

(** What the outside answers.  The n-th [fetch] settles as [net n]; the
    n-th probe loses the race against its 5000 ms timer when
    [timerFirst n]; the n-th [setItem] and [getItem] reject when
    [setItemFails n] and [getItemFails n].  The clock, the random source
    and the locale date are read by [addExpense]. *)
Record Env := mkEnv {
  net : nat -> Fetched;
  timerFirst : nat -> bool;
  setItemFails : nat -> bool;
  getItemFails : nat -> bool;
  now : N;                      (* Date.now() *)
  random36 : string;            (* Math.random().toString(36) *)
  today : string                (* new Date().toLocaleDateString() *)
}.

(** The world a handler threads: the values stored by the setters, the
    list last written under [STORAGE_KEY] (the blob is kept as the list
    that was serialised; a read parses it back, see [getItem]), the
    events so far, and how many requests of each kind were made. *)
Record World := mkWorld {
  state : Render;
  storage : option (list Expense.t);
  trace : list Event;
  fetches : nat;
  probes : nat;
  setItems : nat;
  getItems : nat
}.

(** ** Handlers as computations that may throw *)

Inductive Completion (A : Type) :=
| Normal (a : A)
| Throw.
Arguments Normal {A} a.
Arguments Throw {A}.

Definition M (A : Type) : Type := Env -> World -> Completion A * World.

Definition ret {A} (a : A) : M A := fun _ w => (Normal a, w).

Definition bind {A B} (m : M A) (k : A -> M B) : M B :=
  fun env w =>
    match m env w with
    | (Normal a, w') => k a env w'
    | (Throw, w') => (Throw, w')
    end.

Definition throw {A} : M A := fun _ w => (Throw, w).

(** [try { body } catch { handler }] *)
Definition tryCatch {A} (body handler : M A) : M A :=
  fun env w =>
    match body env w with
    | (Normal a, w') => (Normal a, w')
    | (Throw, w') => handler env w'
    end.

(** [try { body } finally { final }], for a [final] that does not throw *)
Definition tryFinally {A} (body : M A) (final : M unit) : M A :=
  fun env w =>
    match body env w with
    | (r, w') => (r, snd (final env w'))
    end.

Declare Scope js_scope.
Delimit Scope js_scope with js.
Notation "x <- m ;; k" := (bind m (fun x => k))
  (at level 61, m at next level, right associativity) : js_scope.
Notation "m ;; k" := (bind m (fun _ => k))
  (at level 61, right associativity) : js_scope.
Notation "'try' b 'catch' h" := (tryCatch b h)
  (at level 62, b at level 61, h at level 61) : js_scope.
Open Scope js_scope.

Definition emit (e : Event) (w : World) : World :=
  mkWorld (state w) (storage w) (trace w ++ [e])
          (fetches w) (probes w) (setItems w) (getItems w).

Definition withState (f : Render -> Render) : M unit :=
  fun _ w =>
    (Normal tt,
     mkWorld (f (state w)) (storage w) (trace w)
             (fetches w) (probes w) (setItems w) (getItems w)).

Definition setExpenses (v : list Expense.t) : M unit :=
  withState (fun s => mkRender v (title s) (amount s) (category s) (isOnline s) (isLoading s)).
Definition setTitle (v : string) : M unit :=
  withState (fun s => mkRender (expenses s) v (amount s) (category s) (isOnline s) (isLoading s)).
Definition setAmount (v : string) : M unit :=
  withState (fun s => mkRender (expenses s) (title s) v (category s) (isOnline s) (isLoading s)).
Definition setCategory (v : string) : M unit :=
  withState (fun s => mkRender (expenses s) (title s) (amount s) v (isOnline s) (isLoading s)).
Definition setIsOnline (v : bool) : M unit :=
  withState (fun s => mkRender (expenses s) (title s) (amount s) (category s) v (isLoading s)).
Definition setIsLoading (v : bool) : M unit :=
  withState (fun s => mkRender (expenses s) (title s) (amount s) (category s) (isOnline s) v).

(** [Toast.show({ type, title, textBody })] *)
Definition toast (type : AlertType) (toastTitle textBody : string) : M unit :=
  fun _ w => (Normal tt, emit (ToastShow type toastTitle textBody) w).

Definition dialogHide : M unit :=
  fun _ w => (Normal tt, emit DialogHide w).

(** [await fetch(...)]: the request goes out, and the call throws when the
    promise rejects. *)
Definition fetch (request : Event) : M Response :=
  fun env w =>
    let w' := mkWorld (state w) (storage w) (trace w ++ [request])
                      (S (fetches w)) (probes w) (setItems w) (getItems w) in
    match net env (fetches w) with
    | Rejected => (Throw, w')
    | Arrived response => (Normal response, w')
    end.

(** [await Promise.race([fetchPromise, timeoutPromise])] of the probe. *)
Definition raceProbe : M Response :=
  fun env w =>
    let w' := mkWorld (state w) (storage w) (trace w ++ [Probe])
                      (S (fetches w)) (S (probes w)) (setItems w) (getItems w) in
    if timerFirst env (probes w) then (Throw, w')
    else
      match net env (fetches w) with
      | Rejected => (Throw, w')
      | Arrived response => (Normal response, w')
      end.

(** [await response.json()] *)
Definition json (response : Response) : M Json :=
  match body response with
  | Some j => ret j
  | None => throw
  end.

(** [await AsyncStorage.setItem(STORAGE_KEY, JSON.stringify(value))]: a
    write replaces the stored list or rejects and leaves it. *)
Definition setItem (value : list Expense.t) : M unit :=
  fun env w =>
    if setItemFails env (setItems w) then
      (Throw,
       mkWorld (state w) (storage w) (trace w ++ [SetItem value])
               (fetches w) (probes w) (S (setItems w)) (getItems w))
    else
      (Normal tt,
       mkWorld (state w) (Some value) (trace w ++ [SetItem value])
               (fetches w) (probes w) (S (setItems w)) (getItems w)).

(** [JSON.parse(JSON.stringify(list))] *)
Definition parseStored (written : list Expense.t) : list Expense.t :=
  map Expense.throughJson written.

(** [await AsyncStorage.getItem(STORAGE_KEY)], and [JSON.parse] of the
    blob when there is one: the caller gets the list that was written,
    as it comes back from JSON. *)
Definition getItem : M (option (list Expense.t)) :=
  fun env w =>
    let w' := mkWorld (state w) (storage w) (trace w ++ [GetItem])
                      (fetches w) (probes w) (setItems w) (S (getItems w)) in
    if getItemFails env (getItems w) then (Throw, w')
    else (Normal (option_map parseStored (storage w)), w').

(** [for (const x of l) { await body(x) }] *)
Fixpoint forOf {A} (l : list A) (body : A -> M unit) : M unit :=
  match l with
  | [] => ret tt
  | x :: rest => body x ;; forOf rest body
  end.

(** ** The handlers of one render *)

Section Handlers.

(** The render whose closures run: what [expenses], [isOnline], [title],
    [amount] and [category] denote inside every handler below. *)
Variable render : Render.

Definition checkNetworkStatus : M unit :=
  try (
    response <- raceProbe ;;
    setIsOnline (ok response)
  ) catch (
    setIsOnline false
  ).

Definition loadDataFromDatabase : M unit :=
  try (
    response <- fetch LoadExpenses ;;
    if ok response then
      json <- json response ;;
      match status json, expenseList json with
      | true, Some list =>
          let syncedExpenses := map Expense.markSynced list in
          setExpenses syncedExpenses ;;
          setItem syncedExpenses
      | _, _ =>
          toast WARNING "Server Error" "Failed to load expenses from server"
      end
    else
      toast DANGER "Network Error" "Could not connect to server" ;;
      setIsOnline false
  ) catch (
    toast DANGER "Connection Error" "Failed to connect to server" ;;
    setIsOnline false ;;
    throw
  ).

Definition loadExpenses : M unit :=
  tryFinally (
    try (
      setIsLoading true ;;
      if isOnline render then
        loadDataFromDatabase
      else
        stored <- getItem ;;
        match stored with
        | Some parsedExpenses => setExpenses parsedExpenses
        | None => ret tt
        end
    ) catch (
      toast WARNING "Loading Failed" "Could not load expenses. Using local data." ;;
      (try (
        stored <- getItem ;;
        match stored with
        | Some parsedExpenses => setExpenses parsedExpenses
        | None => ret tt
        end
      ) catch (
        ret tt
      ))
    )
  ) (
    setIsLoading false
  ).

Definition saveExpenseToBackend (expense : Expense.t) : M unit :=
  try (
    response <- fetch (SaveExpenses expense) ;;
    if ok response then
      json <- json response ;;
      if status json then
        let updatedExpenses :=
          map (fun exp =>
                 if String.eqb (Expense.id exp) (Expense.id expense)
                 then Expense.confirm (jsonId json) exp
                 else exp)
              (expenses render) in
        setExpenses updatedExpenses ;;
        setItem updatedExpenses
      else
        toast DANGER "Server Error"
              (match message json with
               | Some m => if Js.truthy m then m else "Failed to save to server"
               | None => "Failed to save to server"
               end)
    else
      toast DANGER "Network Error" "Could not connect to server" ;;
      setIsOnline false
  ) catch (
    toast DANGER "Connection Error" "Failed to connect to server" ;;
    setIsOnline false ;;
    throw
  ).

Definition syncWithBackend (expensesToSync : list Expense.t) : M unit :=
  try (
    let unsyncedExpenses := filter Expense.unsynced expensesToSync in
    if (length unsyncedExpenses =? 0)%nat then
      ret tt
    else
      forOf unsyncedExpenses saveExpenseToBackend ;;
      loadDataFromDatabase
  ) catch (
    toast WARNING "Sync Failed" "Could not sync with server. Data saved locally."
  ).

Definition saveExpenses (newExpenses : list Expense.t) : M unit :=
  try (
    setItem newExpenses ;;
    if isOnline render then syncWithBackend newExpenses else ret tt
  ) catch (
    toast DANGER "Save Error" "Failed to save expense locally"
  ).

(** [`tmp-${Date.now()}-${Math.random().toString(36).substr(2, 9)}`] *)
Definition tmpId (env : Env) : string :=
  ("tmp-" ++ Js.toString (now env) ++ "-" ++ Js.substr 2 9 (random36 env))%string.

Definition newExpense (env : Env) : Expense.t :=
  Expense.mk (tmpId env) (Js.trim (title render))
             (Js.parseFloat (amount render)) (category render)
             (today env) (Some false) None.

(** The record literal of [addExpense], evaluated: it reads the clock,
    the random source and the locale date. *)
Definition construct : M Expense.t :=
  fun env w => (Normal (newExpense env), w).

Definition addExpense : M unit :=
  if negb (Js.truthy (Js.trim (title render)))
     || negb (Js.truthy (Js.trim (amount render))) then
    toast DANGER "Error" "Please fill in all fields"
  else
    let numAmount := Js.parseFloat (amount render) in
    if Js.isNaN numAmount || Js.le0 numAmount then
      toast DANGER "Error" "Please enter a valid amount greater than 0"
    else
      newExpense <- construct ;;
      let updatedExpenses := newExpense :: expenses render in
      setExpenses updatedExpenses ;;
      saveExpenses updatedExpenses ;;
      setTitle "" ;;
      setAmount "" ;;
      setCategory "Food" ;;
      toast SUCCESS "Success" "Expense added successfully".

(** [expenseToDelete?.synced], as a condition *)
Definition syncedOf (expenseToDelete : option Expense.t) : bool :=
  match expenseToDelete with
  | Some exp => negb (Expense.unsynced exp)
  | None => false
  end.

(** [expenseToDelete.backendId || id]: an absent or zero [backendId] is
    falsy. *)
Definition deleteIdOf (expenseToDelete : option Expense.t) (id : string) : DeleteId :=
  match expenseToDelete with
  | Some exp =>
      match Expense.backendId exp with
      | Some 0%Z | None => ById id
      | Some n => ByBackendId n
      end
  | None => ById id
  end.

(** [deleteExpense(id)] with the dialog's Delete button pressed: the
    lookup made when the dialog opens, then [onPressButton]. *)
Definition deleteExpense (id : string) : M unit :=
  let expenseToDelete :=
    find (fun exp => String.eqb (Expense.id exp) id) (expenses render) in
  tryFinally (
    try (
      let updatedExpenses :=
        filter (fun exp => negb (String.eqb (Expense.id exp) id)) (expenses render) in
      setExpenses updatedExpenses ;;
      if isOnline render && syncedOf expenseToDelete then
        response <- fetch (DeleteExpenses (deleteIdOf expenseToDelete id)) ;;
        if ok response then
          json <- json response ;;
          if status json then
            toast SUCCESS "Success" "Expense deleted successfully" ;;
            loadDataFromDatabase
          else
            toast WARNING "Partial Success" "Deleted locally, but server delete failed"
        else
          toast WARNING "Network Error" "Deleted locally, could not sync with server"
      else
        setItem updatedExpenses ;;
        toast SUCCESS "Success" "Expense deleted successfully"
    ) catch (
      toast DANGER "Delete Failed" "Could not delete expense"
    )
  ) (
    dialogHide
  ).

Definition retrySync : M unit :=
  (if negb (isOnline render) then checkNetworkStatus else ret tt) ;;
  if isOnline render then
    try (
      syncWithBackend (expenses render) ;;
      toast SUCCESS "Sync Complete" "All expenses synced with server"
    ) catch (
      toast DANGER "Sync Failed" "Could not sync with server"
    )
  else
    toast WARNING "Offline" "No internet connection available".

(** The derived values of the render. *)
Definition unsyncedCount : nat :=
  length (filter Expense.unsynced (expenses render)).

End Handlers.

(** A world in which the setters hold what the render shows. *)
Definition worldOf (r : Render) (stored : option (list Expense.t)) : World :=
  mkWorld r stored [] 0 0 0 0.

(** ** Vocabulary of the properties *)

(** The two ways [addExpense] turns an input down, and the toast that
    reports each. *)
Inductive ValidationError := MissingField | InvalidAmount.

Definition report (err : ValidationError) : Event :=
  match err with
  | MissingField => ToastShow DANGER "Error" "Please fill in all fields"
  | InvalidAmount =>
      ToastShow DANGER "Error" "Please enter a valid amount greater than 0"
  end.

(** Which inputs the two guards of [addExpense] turn down. *)
Inductive Invalid (r : Render) : ValidationError -> Prop :=
| blank_title :
    Js.trim (title r) = "" -> Invalid r MissingField
| blank_amount :
    Js.trim (amount r) = "" -> Invalid r MissingField
| amount_not_a_number :
    Js.trim (title r) <> "" -> Js.trim (amount r) <> "" ->
    Js.isNaN (Js.parseFloat (amount r)) = true -> Invalid r InvalidAmount
| amount_not_positive :
    Js.trim (title r) <> "" -> Js.trim (amount r) <> "" ->
    Js.le0 (Js.parseFloat (amount r)) = true -> Invalid r InvalidAmount.

(** The inputs that pass both guards. *)
Definition valid (r : Render) : Prop :=
  Js.trim (title r) <> "" /\ Js.trim (amount r) <> "" /\
  Js.isNaN (Js.parseFloat (amount r)) = false /\
  Js.le0 (Js.parseFloat (amount r)) = false.

(** The records pushed to the backend, in order. *)
Fixpoint pushes (events : list Event) : list Expense.t :=
  match events with
  | [] => []
  | SaveExpenses expense :: rest => expense :: pushes rest
  | _ :: rest => pushes rest
  end.

(** How many full reloads were requested. *)
Fixpoint reloads (events : list Event) : nat :=
  match events with
  | [] => 0
  | LoadExpenses :: rest => S (reloads rest)
  | _ :: rest => reloads rest
  end.

(** How many connectivity probes were made. *)
Fixpoint probesIn (events : list Event) : nat :=
  match events with
  | [] => 0
  | Probe :: rest => S (probesIn rest)
  | _ :: rest => probesIn rest
  end.

(** Whether an event is a request to the backend. *)
Definition isRequest (e : Event) : bool :=
  match e with
  | Probe | LoadExpenses | SaveExpenses _ | DeleteExpenses _ => true
  | _ => false
  end.

(** A push throws when its fetch rejects or the body of an ok response
    cannot be read. *)
Definition throws (f : Fetched) : bool :=
  match f with
  | Rejected => true
  | Arrived response =>
      ok response && match body response with None => true | Some _ => false end
  end.

(** A request succeeded: an ok response whose body has [status: true]. *)
Definition succeeded (f : Fetched) : bool :=
  match f with
  | Rejected => false
  | Arrived response =>
      ok response && match body response with Some j => status j | None => false end
  end.

(** The collection without the records whose id is [id]: the
    [updatedExpenses] of [deleteExpense]. *)
Definition without (id : string) (l : list Expense.t) : list Expense.t :=
  filter (fun exp => negb (String.eqb (Expense.id exp) id)) l.

(** The [expenseToDelete] of [deleteExpense]. *)
Definition lookup (id : string) (l : list Expense.t) : option Expense.t :=
  find (fun exp => String.eqb (Expense.id exp) id) l.

(** [deleteExpense] asks the backend and the backend confirms: the flag
    is online, the record is synced and the delete request succeeds. *)
Definition remoteDeleteSucceeds (r : Render) (id : string) (env : Env) (w : World) : bool :=
  isOnline r && syncedOf (lookup id (expenses r)) && succeeded (net env (fetches w)).

(** Whether a read of the local store gets through in [loadExpenses]:
    the fallback reads once, and when the read of the offline branch
    throws, the catch block reads again. *)
Definition readsSnapshot (r : Render) (env : Env) (w : World) : bool :=
  negb (getItemFails env (getItems w))
  || (negb (isOnline r) && negb (getItemFails env (S (getItems w)))).

(** The backend answered the reload, but not with a list: an error
    status, [status: false], or no [expenseList]. *)
Definition refused (f : Fetched) : bool :=
  match f with
  | Rejected => false
  | Arrived response =>
      if ok response then
        match body response with
        | Some j => negb (status j && match expenseList j with Some _ => true | None => false end)
        | None => false
        end
      else true
  end.

(** A push throws when its fetch rejects, when the body of an ok
    response cannot be read, or when the create succeeded and the local
    write that follows rejects; [f] and [s] are the indices of the fetch
    and of that write. *)
Definition pushThrows (env : Env) (f s : nat) : bool :=
  throws (net env f) || (succeeded (net env f) && setItemFails env s).

(** The index of the first push that throws in a batch of [count]
    pushes that starts at fetch [f] and write [s]; each confirmed push
    uses up one write. *)
Fixpoint firstThrow (env : Env) (f s count : nat) : option nat :=
  match count with
  | O => None
  | S count' =>
      if pushThrows env f s then Some O
      else option_map S
             (firstThrow env (S f) (if succeeded (net env f) then S s else s) count')
  end.

(** What the probe finds: false when the timer fires first or the fetch
    rejects, [response.ok] otherwise. *)
Definition probeResult (env : Env) (w : World) : bool :=
  if timerFirst env (probes w) then false
  else match net env (fetches w) with
       | Rejected => false
       | Arrived response => ok response
       end.

(** [exp] with the confirmation of [pushed] applied: the function mapped
    by [saveExpenseToBackend]. *)
Definition confirmed (pushed : Expense.t) (j : Json) (exp : Expense.t) : Expense.t :=
  if String.eqb (Expense.id exp) (Expense.id pushed)
  then Expense.confirm (jsonId j) exp
  else exp.

(** A computation only adds events to the trace. *)
Definition Extends {A} (m : M A) : Prop :=
  forall env w, exists new, trace (snd (m env w)) = trace w ++ new.

(** The events [new] hold no push, reload or probe. *)
Definition Quiet (new : list Event) : Prop :=
  pushes new = [] /\ reloads new = 0 /\ probesIn new = 0.

(** ** Concrete renders and environments *)

Module Sample.

(** The backend answers every request with an error status. *)
Definition serverError : Env :=
  mkEnv (fun _ => Arrived (mkResponse false None))
        (fun _ => false) (fun _ => false) (fun _ => false)
        1700000000000 "0.4fzyo82mvyr" "11/3/2026".

(** No request gets through. *)
Definition unreachable : Env :=
  mkEnv (fun _ => Rejected)
        (fun _ => false) (fun _ => false) (fun _ => false)
        1700000000000 "0.4fzyo82mvyr" "11/3/2026".

Definition emptyOnline : Render := mkRender [] "" "" "Food" true false.

(** The form filled in with Coffee, 3.50, Food on an empty list. *)
Definition coffee (online : bool) : Render :=
  mkRender [] "Coffee" "3.50" "Food" online false.

Definition coffeeRecord : Expense.t :=
  Expense.mk "tmp-1700000000000-4fzyo82mv" "Coffee" (Js.Finite (7 # 2))
             "Food" "11/3/2026" (Some false) None.

(** The amount field holds the text Infinity. *)
Definition infinite : Render :=
  mkRender [] "Coffee" "Infinity" "Food" false false.

(** The title is blank. *)
Definition untitled : Render :=
  mkRender [] "   " "3.50" "Food" false false.

(** The create succeeds with id 42, then every request is answered with
    an error status. *)
Definition createdThenDown : Env :=
  mkEnv (fun n => match n with
                  | O => Arrived (mkResponse true (Some (mkJson true None (Some 42%Z) None)))
                  | _ => Arrived (mkResponse false None)
                  end)
        (fun _ => false) (fun _ => false) (fun _ => false)
        1700000000000 "0.4fzyo82mvyr" "11/3/2026".

Definition rent : Expense.t :=
  Expense.mk "7" "Rent" (Js.Finite 900) "Bills" "11/1/2026" None None.

Definition lunch : Expense.t :=
  Expense.mk "8" "Lunch" (Js.Finite 12) "Food" "11/2/2026" None None.

(** The create succeeds with id 42, and the reload returns two records
    that other clients created. *)
Definition sharedServer : Env :=
  mkEnv (fun n => match n with
                  | O => Arrived (mkResponse true (Some (mkJson true None (Some 42%Z) None)))
                  | _ => Arrived (mkResponse true
                                    (Some (mkJson true (Some [rent; lunch]) None None)))
                  end)
        (fun _ => false) (fun _ => false) (fun _ => false)
        1700000000000 "0.4fzyo82mvyr" "11/3/2026".

(** A record confirmed by the backend under id 7. *)
Definition syncedRent : Expense.t :=
  Expense.mk "tmp-1" "Rent" (Js.Finite 900) "Bills" "11/1/2026"
             (Some true) (Some 7%Z).

(** A record made on this device and not yet pushed. *)
Definition pendingTea : Expense.t :=
  Expense.mk "tmp-2" "Tea" (Js.Finite 2) "Food" "11/2/2026" (Some false) None.

Definition onlyRent : Render :=
  mkRender [syncedRent] "" "" "Food" true false.

Definition teaAndRent (online : bool) : Render :=
  mkRender [pendingTea; syncedRent] "" "" "Food" online false.

(** The form filled in with Coffee while one older record is pending. *)
Definition coffeeAfterTea : Render :=
  mkRender [pendingTea] "Coffee" "3.50" "Food" true false.

(** The delete succeeds, and the reload returns an empty list. *)
Definition deletedThenEmpty : Env :=
  mkEnv (fun n => match n with
                  | O => Arrived (mkResponse true (Some (mkJson true None None None)))
                  | _ => Arrived (mkResponse true (Some (mkJson true (Some []) None None)))
                  end)
        (fun _ => false) (fun _ => false) (fun _ => false)
        1700000000000 "0.4fzyo82mvyr" "11/3/2026".

(** A first render: nothing shown yet, the flag still at its initial
    value. *)
Definition firstRender : Render := mkRender [] "" "" "Food" true false.

End Sample.

(** ** Further vocabulary and inputs *)

(** [x > 0] *)
Definition positive (x : Js.value) : Prop :=
  match x with
  | Js.Num (Js.Finite q) => (0 < q)%Q
  | Js.Num (Js.Infinity negative) => negative = false
  | Js.Num Js.NaN => False
  | Js.Null => False
  end.

(** The app started again: the state is back at its initial values
    ([useState]), the local store and the counters are as they were. *)
Definition restart (w : World) : World :=
  mkWorld (mkRender [] "" "" "Food" true false) (storage w) (trace w)
          (fetches w) (probes w) (setItems w) (getItems w).

(** [exp] as [{ ...exp, synced: true }] must be, field by field. *)
Definition syncedCopy (exp copy : Expense.t) : Prop :=
  copy = Expense.mk (Expense.id exp) (Expense.title exp) (Expense.amount exp)
                    (Expense.category exp) (Expense.date exp)
                    (Some true) (Expense.backendId exp).

(** A push answered ok with a readable body and [status: false]. *)
Definition declined (f : Fetched) : bool :=
  match f with
  | Rejected => false
  | Arrived response =>
      ok response && match body response with
                     | Some j => negb (status j)
                     | None => false
                     end
  end.

(** The render that follows a handler: it shows what the setters stored. *)
Definition nextRender (w : World) : Render := state w.

Module Scenario.

(** Every request is answered ok with [status: true] and a list of two
    records. *)
Definition listing : Env :=
  mkEnv (fun _ => Arrived (mkResponse true
                             (Some (mkJson true (Some [Sample.rent; Sample.lunch])
                                           (Some 42%Z) None))))
        (fun _ => false) (fun _ => false) (fun _ => false)
        1700000000000 "0.4fzyo82mvyr" "11/3/2026".

(** No request gets through and every write to the local store rejects. *)
Definition diskFull : Env :=
  mkEnv (fun _ => Rejected)
        (fun _ => false) (fun _ => true) (fun _ => false)
        1700000000000 "0.4fzyo82mvyr" "11/3/2026".

(** The form filled in with Coffee, offline, while one older record is
    pending. *)
Definition coffeeAfterTeaOffline : Render :=
  mkRender [Sample.pendingTea] "Coffee" "3.50" "Food" false false.

(** An amount beyond the range of a number is typed while offline. *)
Definition hugeAmount : Render :=
  mkRender [] "Yacht" "1e999" "Other" false false.

(** Every request is answered ok with a readable body and
    [status: false]. *)
Definition declining : Env :=
  mkEnv (fun _ => Arrived (mkResponse true
                             (Some (mkJson false None None (Some "quota")))))
        (fun _ => false) (fun _ => false) (fun _ => false)
        1700000000000 "0.4fzyo82mvyr" "11/3/2026".

(** The delete is confirmed, and the reload that follows gets an error
    status. *)
Definition deletedThenDown : Env :=
  mkEnv (fun n => match n with
                  | O => Arrived (mkResponse true (Some (mkJson true None None None)))
                  | _ => Arrived (mkResponse false None)
                  end)
        (fun _ => false) (fun _ => false) (fun _ => false)
        1700000000000 "0.4fzyo82mvyr" "11/3/2026".

(** The list is returned, but the write to the local store rejects. *)
Definition listingDiskFull : Env :=
  mkEnv (fun _ => Arrived (mkResponse true
                             (Some (mkJson true (Some [Sample.rent; Sample.lunch])
                                           (Some 42%Z) None))))
        (fun _ => false) (fun _ => true) (fun _ => false)
        1700000000000 "0.4fzyo82mvyr" "11/3/2026".

(** The probe is answered ok, inside the time limit. *)
Definition backOnline : Env :=
  mkEnv (fun _ => Arrived (mkResponse true None))
        (fun _ => false) (fun _ => false) (fun _ => false)
        1700000000000 "0.4fzyo82mvyr" "11/3/2026".

End Scenario.

(** ** Tactics *)

Ltac unfold_prims :=
  unfold bind, tryCatch, tryFinally, ret, throw, toast, dialogHide, fetch,
    raceProbe, json, setItem, getItem, construct, setExpenses, setTitle,
    setAmount, setCategory, setIsOnline, setIsLoading, withState, emit in *.

(** One case split on what the outside answers next. *)
Ltac step_io :=
  match goal with
  | |- context [if isOnline ?r then _ else _] =>
      is_var r; destruct (isOnline r) eqn:?
  | |- context [if timerFirst ?e ?n then _ else _] =>
      destruct (timerFirst e n) eqn:?
  | |- context [match net ?e ?n with _ => _ end] =>
      destruct (net e n) as [|[[|] [?|]]] eqn:?
  | |- context [if status ?j then _ else _] =>
      destruct (status j) eqn:?
  | |- context [match expenseList ?j with _ => _ end] =>
      destruct (expenseList j) eqn:?
  | |- context [if setItemFails ?e ?n then _ else _] =>
      destruct (setItemFails e n) eqn:?
  | |- context [if getItemFails ?e ?n then _ else _] =>
      destruct (getItemFails e n) eqn:?
  | |- context [match storage ?w with _ => _ end] =>
      is_var w; destruct (storage w) eqn:?
  end.

(** Two readings of the same answer of the backend are the same. *)
Ltac same_answer :=
  repeat match goal with
  | H : Arrived _ = Arrived _ |- _ => inversion H; clear H; subst
  | H : Rejected = Arrived _ |- _ => discriminate H
  | H1 : expenseList ?j = Some _, H2 : expenseList ?j = Some _ |- _ =>
      rewrite H1 in H2; inversion H2; clear H2; subst
  | H1 : expenseList ?j = None, H2 : expenseList ?j = Some _ |- _ =>
      rewrite H1 in H2; discriminate H2
  | H1 : status ?j = false, H2 : status ?j = true |- _ =>
      rewrite H1 in H2; discriminate H2
  end.

(** ** Connectivity probe *)

(** C8 (as amended): [checkNetworkStatus] sets the flag to false when the
    probe times out or fails at network level, and to [response.ok] when a
    response arrives, so a response with a non-ok status also yields
    false; it never throws. *)
Theorem checkNetworkStatus_yields (env : Env) (w : World) :
  fst (checkNetworkStatus env w) = Normal tt /\
  isOnline (state (snd (checkNetworkStatus env w))) = probeResult env w /\
  expenses (state (snd (checkNetworkStatus env w))) = expenses (state w) /\
  storage (snd (checkNetworkStatus env w)) = storage w.
Proof.
  unfold checkNetworkStatus, probeResult. unfold_prims.
  destruct (timerFirst env (probes w)); simpl; auto.
  destruct (net env (fetches w)) as [|response]; simpl; auto.
Qed.

(** C8 (as stated) fails: the probe receives a response with an error
    status before the timer fires, and the flag is set to false. *)
Lemma checkNetworkStatus_error_status_is_offline :
  timerFirst Sample.serverError 0 = false /\
  net Sample.serverError 0 = Arrived (mkResponse false None) /\
  isOnline (state (snd (checkNetworkStatus Sample.serverError
                          (worldOf Sample.emptyOnline None))))
  = false.
Proof. repeat split; reflexivity. Qed.

(** ** Adding an expense: validation *)

Lemma truthy_false (s : string) : s = "" -> Js.truthy s = false.
Proof. intros ->. reflexivity. Qed.

Lemma truthy_true (s : string) : s <> "" -> Js.truthy s = true.
Proof. destruct s; [congruence | reflexivity]. Qed.

(** C6 (as amended): [addExpense] reports MissingField when the title is
    empty after trimming or the amount text is blank, and InvalidAmount
    when [parseFloat] of the amount text is NaN or at most 0; in each of
    these cases nothing but the toast happens: the stored state (the
    collection and the form), the local store and the request counters
    are unchanged.  Finiteness is not checked. *)
Theorem addExpense_rejects (r : Render) (err : ValidationError)
    (env : Env) (w : World) (H : Invalid r err) :
  addExpense r env w = (Normal tt, emit (report err) w) /\
  state (snd (addExpense r env w)) = state w /\
  storage (snd (addExpense r env w)) = storage w.
Proof.
  assert (E : addExpense r env w = (Normal tt, emit (report err) w)).
  { unfold addExpense.
    destruct H as [Ht | Ha | Ht Ha Hn | Ht Ha Hp].
    - rewrite (truthy_false _ Ht). reflexivity.
    - rewrite (truthy_false _ Ha), orb_true_r. reflexivity.
    - rewrite (truthy_true _ Ht), (truthy_true _ Ha), Hn. reflexivity.
    - rewrite (truthy_true _ Ht), (truthy_true _ Ha), Hp, orb_true_r.
      reflexivity. }
  rewrite E. auto.
Qed.

Lemma addExpense_rejects_witness :
  Invalid Sample.untitled MissingField /\
  state (snd (addExpense Sample.untitled Sample.unreachable
                (worldOf Sample.untitled None)))
  = Sample.untitled.
Proof.
  assert (H : Invalid Sample.untitled MissingField)
    by (apply blank_title; reflexivity).
  split; [exact H |].
  exact (proj1 (proj2 (addExpense_rejects Sample.untitled MissingField
                         Sample.unreachable (worldOf Sample.untitled None) H))).
Defined.

(** C6 (as stated) fails: the amount text Infinity does not parse to a
    finite number, yet it passes both guards and the record is added. *)
Lemma addExpense_accepts_Infinity :
  Js.isFinite (Js.parseFloat (amount Sample.infinite)) = false /\
  expenses (state (snd (addExpense Sample.infinite Sample.unreachable
                          (worldOf Sample.infinite None))))
  = [Expense.mk "tmp-1700000000000-4fzyo82mv" "Coffee" (Js.Infinity false)
                "Food" "11/3/2026" (Some false) None] /\
  storage (snd (addExpense Sample.infinite Sample.unreachable
                  (worldOf Sample.infinite None)))
  <> storage (worldOf Sample.infinite None).
Proof. repeat split; try reflexivity. discriminate. Qed.

(** ** Every handler only adds to the trace *)

Lemma Extends_ret {A} (a : A) : Extends (ret a).
Proof. intros env w. exists []. simpl. now rewrite app_nil_r. Qed.

Lemma Extends_throw {A} : Extends (@throw A).
Proof. intros env w. exists []. simpl. now rewrite app_nil_r. Qed.

Lemma Extends_bind {A B} (m : M A) (k : A -> M B) :
  Extends m -> (forall a, Extends (k a)) -> Extends (bind m k).
Proof.
  intros Hm Hk env w. unfold bind.
  destruct (Hm env w) as [n1 E1].
  destruct (m env w) as [[a|] w1]; simpl in *.
  - destruct (Hk a env w1) as [n2 E2]. exists (n1 ++ n2).
    now rewrite E2, E1, app_assoc.
  - now exists n1.
Qed.

Lemma Extends_tryCatch {A} (b h : M A) :
  Extends b -> Extends h -> Extends (tryCatch b h).
Proof.
  intros Hb Hh env w. unfold tryCatch.
  destruct (Hb env w) as [n1 E1].
  destruct (b env w) as [[a|] w1]; simpl in *.
  - now exists n1.
  - destruct (Hh env w1) as [n2 E2]. exists (n1 ++ n2).
    now rewrite E2, E1, app_assoc.
Qed.

Lemma Extends_tryFinally {A} (b : M A) (f : M unit) :
  Extends b -> Extends f -> Extends (tryFinally b f).
Proof.
  intros Hb Hf env w. unfold tryFinally.
  destruct (Hb env w) as [n1 E1].
  destruct (b env w) as [r w1]; simpl in *.
  destruct (Hf env w1) as [n2 E2]. exists (n1 ++ n2).
  now rewrite E2, E1, app_assoc.
Qed.

Lemma Extends_withState (f : Render -> Render) : Extends (withState f).
Proof. intros env w. exists []. simpl. now rewrite app_nil_r. Qed.

Lemma Extends_toast (t : AlertType) (a b : string) : Extends (toast t a b).
Proof. intros env w. now exists [ToastShow t a b]. Qed.

Lemma Extends_dialogHide : Extends dialogHide.
Proof. intros env w. now exists [DialogHide]. Qed.

Lemma Extends_fetch (e : Event) : Extends (fetch e).
Proof.
  intros env w. exists [e]. unfold fetch.
  now destruct (net env (fetches w)).
Qed.

Lemma Extends_raceProbe : Extends raceProbe.
Proof.
  intros env w. exists [Probe]. unfold raceProbe.
  destruct (timerFirst env (probes w)); [reflexivity|].
  now destruct (net env (fetches w)).
Qed.

Lemma Extends_json (r : Response) : Extends (json r).
Proof.
  unfold json. destruct (body r); [apply Extends_ret | apply Extends_throw].
Qed.

Lemma Extends_setItem (v : list Expense.t) : Extends (setItem v).
Proof.
  intros env w. exists [SetItem v]. unfold setItem.
  now destruct (setItemFails env (setItems w)).
Qed.

Lemma Extends_getItem : Extends getItem.
Proof.
  intros env w. exists [GetItem]. unfold getItem.
  now destruct (getItemFails env (getItems w)).
Qed.

Lemma Extends_forOf {A} (l : list A) (body : A -> M unit) :
  (forall x, Extends (body x)) -> Extends (forOf l body).
Proof.
  intros Hb. induction l as [|x l IH]; simpl.
  - apply Extends_ret.
  - apply Extends_bind; auto.
Qed.

Ltac extends :=
  repeat first
    [ apply Extends_ret | apply Extends_throw
    | apply Extends_toast | apply Extends_dialogHide
    | apply Extends_fetch | apply Extends_raceProbe | apply Extends_json
    | apply Extends_setItem | apply Extends_getItem
    | apply Extends_withState
    | apply Extends_bind; [| intros ?]
    | apply Extends_tryCatch
    | apply Extends_tryFinally
    | apply Extends_forOf; intros ?
    | match goal with
      | |- Extends (if ?b then _ else _) => destruct b
      | |- Extends (match ?x with _ => _ end) => destruct x
      end ].

Lemma Extends_checkNetworkStatus : Extends checkNetworkStatus.
Proof. unfold checkNetworkStatus, setIsOnline. extends. Qed.

Lemma Extends_loadDataFromDatabase : Extends loadDataFromDatabase.
Proof.
  unfold loadDataFromDatabase, setExpenses, setIsOnline. extends.
Qed.

Lemma Extends_saveExpenseToBackend (r : Render) (e : Expense.t) :
  Extends (saveExpenseToBackend r e).
Proof.
  unfold saveExpenseToBackend, setExpenses, setIsOnline. extends.
Qed.

Lemma Extends_syncWithBackend (r : Render) (l : list Expense.t) :
  Extends (syncWithBackend r l).
Proof.
  unfold syncWithBackend. extends.
Qed.

(** ** Handlers that catch everything *)

Lemma tryCatch_normal {A} (b h : M A) (env : Env) (w : World) :
  (forall w1, exists a, fst (h env w1) = Normal a) ->
  exists a, fst (tryCatch b h env w) = Normal a.
Proof.
  intros Hh. unfold tryCatch.
  destruct (b env w) as [[a|] w1]; simpl; eauto.
Qed.

Lemma unit_normal (c : Completion unit) : (exists a, c = Normal a) -> c = Normal tt.
Proof. intros [[] E]. exact E. Qed.

Lemma syncWithBackend_normal (r : Render) (l : list Expense.t) env w :
  fst (syncWithBackend r l env w) = Normal tt.
Proof.
  apply unit_normal. unfold syncWithBackend.
  apply tryCatch_normal. intros w1. now exists tt.
Qed.

Lemma saveExpenses_normal (r : Render) (l : list Expense.t) env w :
  fst (saveExpenses r l env w) = Normal tt.
Proof.
  apply unit_normal. unfold saveExpenses.
  apply tryCatch_normal. intros w1. now exists tt.
Qed.

(** ** Adding an expense: the local write comes first *)

Lemma filter_isRequest_app (a b : list Event) :
  filter isRequest a = [] -> filter isRequest b = [] ->
  filter isRequest (a ++ b) = [].
Proof. intros Ha Hb. now rewrite filter_app, Ha, Hb. Qed.

Lemma saveExpenses_first_write (r : Render) (l : list Expense.t) env w :
  exists rest,
    trace (snd (saveExpenses r l env w)) = trace w ++ SetItem l :: rest /\
    (isOnline r = false ->
     filter isRequest rest = [] /\
     state (snd (saveExpenses r l env w)) = state w /\
     fetches (snd (saveExpenses r l env w)) = fetches w /\
     (setItemFails env (setItems w) = false ->
      storage (snd (saveExpenses r l env w)) = Some l)).
Proof.
  unfold saveExpenses, tryCatch, bind, setItem.
  destruct (setItemFails env (setItems w)) eqn:Hset.
  - eexists. split.
    + simpl. rewrite <- app_assoc. reflexivity.
    + intros _. simpl. repeat split; auto. discriminate.
  - destruct (isOnline r) eqn:Hon.
    + match goal with
      | |- context [syncWithBackend r l env ?w1] =>
          pose proof (syncWithBackend_normal r l env w1) as Hn;
          destruct (Extends_syncWithBackend r l env w1) as [new Hnew];
          destruct (syncWithBackend r l env w1) as [c w2]
      end.
      simpl in Hn, Hnew. subst c. simpl.
      exists new. split; [| discriminate].
      rewrite Hnew. now rewrite <- app_assoc.
    + exists []. simpl. split; [reflexivity |].
      intros _. repeat split; auto.
Qed.

(** C7 (as amended): for every valid input and every prior collection,
    [addExpense] builds the list with the new record first and the prior
    collection after it (one record longer); the new record carries the
    generated temporary id and synced=false; the first event of the call
    is the write of exactly that list to the local store, whatever the
    connectivity flag, so it precedes every request; and when the flag is
    offline no request is made, the collection ends as that list, and so
    does the local store when the write succeeds.  (Online, the sync that
    follows may replace the collection.) *)
Theorem addExpense_persists_prepended_first (r : Render) (env : Env) (w : World)
    (Hv : valid r) :
  let updated := newExpense r env :: expenses r in
  let w' := snd (addExpense r env w) in
  fst (addExpense r env w) = Normal tt /\
  length updated = S (length (expenses r)) /\
  hd_error updated = Some (newExpense r env) /\
  Expense.id (newExpense r env) = tmpId env /\
  Expense.synced (newExpense r env) = Some false /\
  (exists rest,
     trace w' = trace w ++ SetItem updated :: rest /\
     (isOnline r = false -> filter isRequest rest = [])) /\
  (isOnline r = false -> expenses (state w') = updated) /\
  (isOnline r = false -> setItemFails env (setItems w) = false ->
   storage w' = Some updated).
Proof.
  intros updated w'. subst w'.
  destruct Hv as (Ht & Ha & Hn & Hp).
  unfold addExpense.
  rewrite (truthy_true _ Ht), (truthy_true _ Ha), Hn, Hp. simpl.
  unfold_prims. simpl. fold updated.
  match goal with
  | |- context [saveExpenses r updated env ?w1] =>
      pose proof (saveExpenses_normal r updated env w1) as Hnorm;
      destruct (saveExpenses_first_write r updated env w1) as (rest & Htr & Hoff);
      destruct (saveExpenses r updated env w1) as [c w2]
  end.
  simpl in Hnorm, Htr, Hoff. subst c. simpl.
  repeat split.
  - exists (rest ++ [ToastShow SUCCESS "Success" "Expense added successfully"]).
    split.
    + rewrite Htr. rewrite <- app_assoc. reflexivity.
    + intros Hoffline. destruct (Hoff Hoffline) as (Hreq & _).
      apply filter_isRequest_app; auto.
  - intros Hoffline. destruct (Hoff Hoffline) as (_ & Hst & _).
    now rewrite Hst.
  - intros Hoffline Hset. destruct (Hoff Hoffline) as (_ & _ & _ & Hsto).
    now apply Hsto.
Qed.

Lemma valid_coffee (online : bool) : valid (Sample.coffee online).
Proof. repeat split; simpl; discriminate. Qed.

Lemma addExpense_persists_prepended_first_witness :
  valid (Sample.coffee false) /\
  expenses (state (snd (addExpense (Sample.coffee false) Sample.unreachable
                          (worldOf (Sample.coffee false) None))))
  = [Sample.coffeeRecord].
Proof.
  split; [exact (valid_coffee false) |].
  exact (proj1 (proj2 (proj2 (proj2 (proj2 (proj2 (proj2
    (addExpense_persists_prepended_first (Sample.coffee false)
       Sample.unreachable (worldOf (Sample.coffee false) None)
       (valid_coffee false)))))))) eq_refl).
Defined.

(** C7 (as stated) fails: online, the create succeeds and the reload
    returns two records of other clients; the collection grows from 0 to
    2 records and the new record is not first. *)
Lemma addExpense_online_reload_replaces :
  valid (Sample.coffee true) /\
  length (expenses (Sample.coffee true)) = 0 /\
  expenses (state (snd (addExpense (Sample.coffee true) Sample.sharedServer
                          (worldOf (Sample.coffee true) None))))
  = [Expense.markSynced Sample.rent; Expense.markSynced Sample.lunch] /\
  hd_error (expenses (state (snd (addExpense (Sample.coffee true) Sample.sharedServer
                                    (worldOf (Sample.coffee true) None)))))
  <> Some (newExpense (Sample.coffee true) Sample.sharedServer).
Proof.
  split; [exact (valid_coffee true) |].
  repeat split; try reflexivity.
  intros H. vm_compute in H. discriminate H.
Qed.

(** ** Adding an expense online: the confirmation is lost *)

(** A confirmed push of a record that the render's list does not hold
    sets the collection back to the render's list. *)
Lemma saveExpenseToBackend_stale_list (r : Render) (e : Expense.t) env w :
  (forall exp, In exp (expenses r) -> Expense.id exp <> Expense.id e) ->
  succeeded (net env (fetches w)) = true ->
  expenses (state (snd (saveExpenseToBackend r e env w))) = expenses r.
Proof.
  intros Habsent Hs.
  unfold saveExpenseToBackend, succeeded in *. unfold_prims. simpl.
  destruct (net env (fetches w)) as [|[[|] [j|]]]; simpl in *;
    try discriminate.
  rewrite Hs. simpl.
  assert (Hmap : forall l,
            (forall exp, In exp l -> Expense.id exp <> Expense.id e) ->
            map (fun exp => if String.eqb (Expense.id exp) (Expense.id e)
                            then Expense.confirm (jsonId j) exp else exp) l = l).
  { induction l as [|x l IH]; intros Hl; simpl; [reflexivity |].
    assert (Hx : Expense.id x <> Expense.id e) by (apply Hl; now left).
    apply String.eqb_neq in Hx. rewrite Hx. f_equal.
    apply IH. intros exp Hin. apply Hl. now right. }
  destruct (setItemFails env (setItems w)); simpl; now apply Hmap.
Qed.

(** C2, at the failing input: the list is empty, the flag online, the
    create is answered [{status: true, id: 42}] and the reload that
    follows gets an error status.  [saveExpenseToBackend] maps over the
    [expenses] of the render, which does not hold the new record, so the
    collection and the local store both end empty: the record is neither
    synced=true nor present. *)
Theorem addExpense_online_confirmation_lost :
  valid (Sample.coffee true) /\
  succeeded (net Sample.createdThenDown 0) = true /\
  pushes (trace (snd (addExpense (Sample.coffee true) Sample.createdThenDown
                        (worldOf (Sample.coffee true) None))))
  = [Sample.coffeeRecord] /\
  expenses (state (snd (addExpense (Sample.coffee true) Sample.createdThenDown
                          (worldOf (Sample.coffee true) None))))
  = [] /\
  storage (snd (addExpense (Sample.coffee true) Sample.createdThenDown
                  (worldOf (Sample.coffee true) None)))
  = Some [].
Proof.
  split; [exact (valid_coffee true) |].
  repeat split; reflexivity.
Qed.

(** ** Deleting an expense: the local store in the remote branch *)

(** In the remote branch, a delete that the backend does not confirm
    leaves the local store as it was, while the record is gone from the
    collection. *)
Lemma deleteExpense_remote_branch_no_write (r : Render) (id : string) env w :
  isOnline r = true ->
  syncedOf (lookup id (expenses r)) = true ->
  succeeded (net env (fetches w)) = false ->
  fst (deleteExpense r id env w) = Normal tt /\
  expenses (state (snd (deleteExpense r id env w))) = without id (expenses r) /\
  storage (snd (deleteExpense r id env w)) = storage w.
Proof.
  intros Hon Hsynced Hs.
  unfold deleteExpense, succeeded in *.
  fold (lookup id (expenses r)). rewrite Hon, Hsynced.
  unfold_prims. simpl.
  destruct (net env (fetches w)) as [|[[|] [j|]]]; simpl in *;
    try (repeat split; reflexivity).
  rewrite Hs. repeat split; reflexivity.
Qed.

(** C4, at the failing input: the flag is online, the only record is
    synced, the local store holds it, and the remote delete is answered
    with an error status.  The record leaves the collection, the warning
    is shown, nothing is thrown, but no write reaches the local store,
    which still holds the record. *)
Theorem deleteExpense_remote_failure_not_persisted :
  deleteExpense Sample.onlyRent "tmp-1" Sample.serverError
    (worldOf Sample.onlyRent (Some [Sample.syncedRent]))
  = (Normal tt,
     mkWorld (mkRender [] "" "" "Food" true false)
             (Some [Sample.syncedRent])
             [DeleteExpenses (ByBackendId 7);
              ToastShow WARNING "Network Error"
                        "Deleted locally, could not sync with server";
              DialogHide]
             1 0 0 0).
Proof. reflexivity. Qed.

(** ** Deleting an expense *)

Lemma without_In (id : string) (l : list Expense.t) (exp : Expense.t) :
  In exp (without id l) <-> In exp l /\ Expense.id exp <> id.
Proof.
  unfold without. rewrite filter_In, negb_true_iff, String.eqb_neq. tauto.
Qed.

Lemma without_absent (id : string) (l : list Expense.t) :
  (forall exp, In exp l -> Expense.id exp <> id) -> without id l = l.
Proof.
  induction l as [|x l IH]; intros H; simpl; [reflexivity |].
  assert (Hx : Expense.id x <> id) by (apply H; now left).
  apply String.eqb_neq in Hx. rewrite Hx. simpl.
  f_equal. apply IH. intros exp Hin. apply H. now right.
Qed.

Lemma lookup_absent (id : string) (l : list Expense.t) :
  (forall exp, In exp l -> Expense.id exp <> id) -> lookup id l = None.
Proof.
  induction l as [|x l IH]; intros H; simpl; [reflexivity |].
  assert (Hx : Expense.id x <> id) by (apply H; now left).
  apply String.eqb_neq in Hx. rewrite Hx.
  apply IH. intros exp Hin. apply H. now right.
Qed.

Lemma without_found (id : string) (l : list Expense.t) (found : Expense.t) :
  NoDup (map Expense.id l) -> lookup id l = Some found ->
  Expense.id found = id /\
  exists before after,
    l = before ++ found :: after /\ without id l = before ++ after.
Proof.
  induction l as [|x l IH]; intros Hnd Hf; simpl in *; [discriminate |].
  inversion Hnd as [|? ? Hnotin Hnd']; subst.
  destruct (String.eqb (Expense.id x) id) eqn:E.
  - inversion Hf; subst found. apply String.eqb_eq in E.
    split; [exact E |].
    exists [], l. split; [reflexivity |]. simpl.
    apply without_absent. intros exp Hin Heq.
    apply Hnotin. rewrite E, <- Heq. now apply in_map.
  - destruct (IH Hnd' Hf) as (Hid & before & after & Hl & Hw).
    split; [exact Hid |].
    exists (x :: before), after. simpl. split; [now rewrite Hl | now rewrite Hw].
Qed.

(** C9 (as amended): for every collection with unique ids,
    [deleteExpense id] sets the collection to the prior one without the
    record of that id: the record found is taken out of its place and
    every other record stays, in order; this is the collection the call
    ends with unless the backend confirms the delete (then the reload of
    C10 follows); and when no record has that id the collection ends
    unchanged. *)
Theorem deleteExpense_removes_exactly (r : Render) (id : string)
    (env : Env) (w : World)
    (Hunique : NoDup (map Expense.id (expenses r))) :
  let w' := snd (deleteExpense r id env w) in
  (forall exp, In exp (without id (expenses r)) <->
               In exp (expenses r) /\ Expense.id exp <> id) /\
  (forall found, lookup id (expenses r) = Some found ->
     exists before after,
       expenses r = before ++ found :: after /\
       without id (expenses r) = before ++ after) /\
  (remoteDeleteSucceeds r id env w = false ->
   expenses (state w') = without id (expenses r)) /\
  ((forall exp, In exp (expenses r) -> Expense.id exp <> id) ->
   expenses (state w') = expenses r).
Proof.
  intros w'.
  assert (Hfinal : remoteDeleteSucceeds r id env w = false ->
                   expenses (state w') = without id (expenses r)).
  { subst w'. unfold remoteDeleteSucceeds, deleteExpense, loadDataFromDatabase.
    fold (lookup id (expenses r)). fold (without id (expenses r)).
    unfold_prims. simpl.
    destruct (isOnline r && syncedOf (lookup id (expenses r))) eqn:Hc; simpl.
    - intros Hs. unfold succeeded in Hs.
      destruct (net env (fetches w)) as [|[o [j|]]]; simpl in *;
        try reflexivity.
      + destruct o; simpl in *; [| reflexivity].
        rewrite Hs. reflexivity.
      + destruct o; reflexivity.
    - intros _. destruct (setItemFails env (setItems w)); reflexivity. }
  split; [intros exp; apply without_In |].
  split; [intros found Hf; now apply (without_found id _ found Hunique) |].
  split; [exact Hfinal |].
  intros Habsent. rewrite <- (without_absent id (expenses r) Habsent).
  apply Hfinal. unfold remoteDeleteSucceeds.
  rewrite (lookup_absent id _ Habsent). simpl. now rewrite andb_false_r.
Qed.

Lemma deleteExpense_removes_exactly_witness :
  NoDup (map Expense.id (expenses (Sample.teaAndRent false))) /\
  expenses (state (snd (deleteExpense (Sample.teaAndRent false) "tmp-1"
                          Sample.unreachable
                          (worldOf (Sample.teaAndRent false) None))))
  = [Sample.pendingTea].
Proof.
  assert (H : NoDup (map Expense.id (expenses (Sample.teaAndRent false)))).
  { simpl. repeat constructor; simpl; intuition discriminate. }
  split; [exact H |].
  exact (proj1 (proj2 (proj2
    (deleteExpense_removes_exactly (Sample.teaAndRent false) "tmp-1"
       Sample.unreachable (worldOf (Sample.teaAndRent false) None) H)))
    eq_refl).
Defined.

(** C9 (as stated) fails: ids are unique, the synced record is deleted
    online, the backend confirms and the reload returns an empty list;
    the pending record, which has another id, is gone as well. *)
Lemma deleteExpense_reload_removes_others :
  NoDup (map Expense.id (expenses (Sample.teaAndRent true))) /\
  In Sample.pendingTea (expenses (Sample.teaAndRent true)) /\
  Expense.id Sample.pendingTea <> "tmp-1" /\
  expenses (state (snd (deleteExpense (Sample.teaAndRent true) "tmp-1"
                          Sample.deletedThenEmpty
                          (worldOf (Sample.teaAndRent true) None))))
  = [].
Proof.
  repeat split.
  - simpl. repeat constructor; simpl; intuition discriminate.
  - simpl. now left.
  - discriminate.
Qed.

(** ** Deleting a synced expense online: the reload *)

Lemma markSynced_copies_all (l : list Expense.t) :
  Forall2 syncedCopy l (map Expense.markSynced l) /\
  (forall exp, In exp (map Expense.markSynced l) ->
               Expense.synced exp = Some true) /\
  (forall id, (forall x, In x l -> Expense.id x <> id) ->
              forall y, In y (map Expense.markSynced l) -> Expense.id y <> id).
Proof.
  split; [| split].
  - induction l; simpl; constructor; auto. reflexivity.
  - intros exp Hin. apply in_map_iff in Hin.
    destruct Hin as (x & <- & _). reflexivity.
  - intros id Hid y Hin. apply in_map_iff in Hin.
    destruct Hin as (x & <- & Hx). simpl. now apply Hid.
Qed.

(** C10 (as amended): when the flag is online, the record found is
    synced and the backend confirms the delete, [deleteExpense] makes
    two requests, the delete and then a full reload, and does not throw.
    When the reload returns a list, the collection is replaced by that
    list, each record the same but for synced=true; a record of the
    prior collection whose id the list does not hold is gone, whatever
    its sync state; and the local store holds the new collection when
    the write succeeds and its old content when it rejects.  When the
    reload is refused or throws, the collection stays the prior one
    without the deleted id. *)
Theorem deleteExpense_success_reloads (r : Render) (id : string)
    (env : Env) (w : World) (found : Expense.t)
    (Honline : isOnline r = true)
    (Hfound : lookup id (expenses r) = Some found)
    (Hsynced : Expense.synced found = Some true)
    (Hdelete : succeeded (net env (fetches w)) = true) :
  let w' := snd (deleteExpense r id env w) in
  fst (deleteExpense r id env w) = Normal tt /\
  (exists new,
     trace w' = trace w ++ new /\
     filter isRequest new
     = [DeleteExpenses (deleteIdOf (Some found) id); LoadExpenses]) /\
  (forall (j : Json) (list : list Expense.t),
     net env (S (fetches w)) = Arrived (mkResponse true (Some j)) ->
     status j = true -> expenseList j = Some list ->
     Forall2 syncedCopy list (expenses (state w')) /\
     (forall exp, In exp (expenses (state w')) ->
                  Expense.synced exp = Some true) /\
     (forall exp, In exp (expenses r) ->
                  (forall x, In x list -> Expense.id x <> Expense.id exp) ->
                  forall y, In y (expenses (state w')) ->
                            Expense.id y <> Expense.id exp) /\
     storage w' = (if setItemFails env (setItems w) then storage w
                   else Some (expenses (state w')))) /\
  (refused (net env (S (fetches w))) = true \/
   throws (net env (S (fetches w))) = true ->
   expenses (state w') = without id (expenses r)).
Proof.
  intros w'. subst w'.
  unfold deleteExpense, loadDataFromDatabase, refused, throws.
  fold (lookup id (expenses r)). fold (without id (expenses r)).
  rewrite Hfound, Honline.
  unfold syncedOf, Expense.unsynced. rewrite Hsynced.
  unfold succeeded in Hdelete.
  unfold_prims. simpl.
  destruct (net env (fetches w)) as [|[o [jd|]]]; simpl in Hdelete;
    try discriminate.
  2: { destruct o; discriminate. }
  destruct o; simpl in Hdelete; [| discriminate].
  simpl. rewrite Hdelete. simpl.
  repeat (step_io; simpl);
  (split; [reflexivity |]);
  (split; [eexists; split; [rewrite <- !app_assoc; reflexivity | reflexivity] |]);
  (split; [intros ? ? ? ? ?; try discriminate; same_answer;
           (split; [apply markSynced_copies_all |]);
           (split; [apply markSynced_copies_all |]);
           (split; [intros exp _; apply markSynced_copies_all | reflexivity])
          | intros [?|?]; try discriminate; reflexivity]).
Qed.

Lemma deleteExpense_success_reloads_witness :
  isOnline (Sample.teaAndRent true) = true /\
  lookup "tmp-1" (expenses (Sample.teaAndRent true)) = Some Sample.syncedRent /\
  succeeded (net Scenario.listing 0) = true /\
  Forall2 syncedCopy [Sample.rent; Sample.lunch]
    (expenses (state (snd (deleteExpense (Sample.teaAndRent true) "tmp-1"
                             Scenario.listing
                             (worldOf (Sample.teaAndRent true) None))))) /\
  forall y,
    In y (expenses (state (snd (deleteExpense (Sample.teaAndRent true) "tmp-1"
                                  Scenario.listing
                                  (worldOf (Sample.teaAndRent true) None))))) ->
    Expense.id y <> Expense.id Sample.pendingTea.
Proof.
  split; [reflexivity |]. split; [reflexivity |]. split; [reflexivity |].
  destruct (deleteExpense_success_reloads (Sample.teaAndRent true) "tmp-1"
              Scenario.listing
              (worldOf (Sample.teaAndRent true) None)
              Sample.syncedRent eq_refl eq_refl eq_refl eq_refl)
    as (_ & _ & Hreload & _).
  destruct (Hreload (mkJson true (Some [Sample.rent; Sample.lunch]) (Some 42%Z) None)
              [Sample.rent; Sample.lunch] eq_refl eq_refl eq_refl)
    as (Hcopies & _ & Hgone & _).
  split; [exact Hcopies |].
  apply (Hgone Sample.pendingTea).
  - simpl. now left.
  - intros x [<- | [<- | []]]; discriminate.
Defined.

(** C10 (as stated) fails: the flag is online, the synced record is
    deleted and the backend confirms, but the reload that follows gets
    an error status; the collection is not replaced, and the record
    that was unsynced is still in it. *)
Lemma deleteExpense_reload_refused_keeps_unsynced :
  isOnline (Sample.teaAndRent true) = true /\
  lookup "tmp-1" (expenses (Sample.teaAndRent true)) = Some Sample.syncedRent /\
  Expense.synced Sample.syncedRent = Some true /\
  succeeded (net Scenario.deletedThenDown 0) = true /\
  Expense.unsynced Sample.pendingTea = true /\
  expenses (state (snd (deleteExpense (Sample.teaAndRent true) "tmp-1"
                          Scenario.deletedThenDown
                          (worldOf (Sample.teaAndRent true) None))))
  = [Sample.pendingTea].
Proof. repeat split; reflexivity. Qed.

(** ** Loading the collection *)

Lemma markSynced_copies (l : list Expense.t) :
  Forall2 syncedCopy l (map Expense.markSynced l).
Proof. induction l; simpl; constructor; auto. reflexivity. Qed.

(** C3 (as amended): [loadExpenses] never throws and clears the loading
    flag; the collection it leaves is wholly the prior one, wholly the
    list the backend returned with every record marked synced and
    nothing else changed, or wholly the local snapshot as it parses
    back, never a mixture.  Online with a returned list: when the local
    write succeeds, the collection is that marked list and the local
    store holds it; when the write rejects, the store keeps its old
    content and the fallback runs, so the collection ends as the old
    snapshot when the read gets through and one exists, and as the
    marked list otherwise.  Offline, or when the fetch throws, the local
    snapshot is read: the collection becomes the snapshot when a read
    gets through and one exists, and stays as it was otherwise.  When
    the backend answers without a list (error status, status false),
    there is no fallback: nothing is read and the collection and the
    store stay as they were. *)
Theorem loadExpenses_one_source (r : Render) (env : Env) (w : World) :
  let w' := snd (loadExpenses r env w) in
  let prior := expenses (state w) in
  fst (loadExpenses r env w) = Normal tt /\
  isLoading (state w') = false /\
  (expenses (state w') = prior \/
   (exists j list,
      isOnline r = true /\
      net env (fetches w) = Arrived (mkResponse true (Some j)) /\
      status j = true /\ expenseList j = Some list /\
      Forall2 syncedCopy list (expenses (state w'))) \/
   (exists snapshot,
      storage w = Some snapshot /\
      expenses (state w') = parseStored snapshot)) /\
  (forall j list,
     isOnline r = true ->
     net env (fetches w) = Arrived (mkResponse true (Some j)) ->
     status j = true -> expenseList j = Some list ->
     setItemFails env (setItems w) = false ->
     Forall2 syncedCopy list (expenses (state w')) /\
     storage w' = Some (expenses (state w'))) /\
  (forall j list,
     isOnline r = true ->
     net env (fetches w) = Arrived (mkResponse true (Some j)) ->
     status j = true -> expenseList j = Some list ->
     setItemFails env (setItems w) = true ->
     storage w' = storage w /\
     match (if getItemFails env (getItems w) then None else storage w) with
     | Some snapshot => expenses (state w') = parseStored snapshot
     | None => Forall2 syncedCopy list (expenses (state w'))
     end) /\
  (isOnline r = false \/ throws (net env (fetches w)) = true ->
   expenses (state w') =
     if readsSnapshot r env w
     then match storage w with
          | Some snapshot => parseStored snapshot
          | None => prior
          end
     else prior) /\
  (isOnline r = true -> refused (net env (fetches w)) = true ->
   expenses (state w') = prior /\ storage w' = storage w /\
   exists new, trace w' = trace w ++ new /\ ~ In GetItem new).
Proof.
  intros w' prior. subst w' prior.
  unfold loadExpenses, loadDataFromDatabase, readsSnapshot, refused, throws.
  unfold_prims. simpl.
  repeat (step_io; simpl);
  (split; [reflexivity |]);
  (split; [reflexivity |]);
  (split; [first [ left; reflexivity
                 | right; right; eexists; split; reflexivity
                 | right; left; do 2 eexists; repeat split; eauto;
                   apply markSynced_copies ] |]);
  (split; [intros ? ? ? ? ? ? ?; try discriminate; same_answer;
           (split; [apply markSynced_copies | reflexivity]) |]);
  (split; [intros ? ? ? ? ? ? ?; try discriminate; same_answer;
           (split; [reflexivity
                   | first [reflexivity | apply markSynced_copies]]) |]);
  (split; [intros [?|?]; try discriminate; reflexivity |]);
  intros ? ?; try discriminate;
  (split; [reflexivity |]); (split; [reflexivity |]);
  (eexists; split; [rewrite <- ?app_assoc; reflexivity |]);
  simpl; intuition discriminate.
Qed.

Lemma loadExpenses_one_source_witness :
  isOnline Sample.firstRender = true /\
  setItemFails Scenario.listingDiskFull 0 = true /\
  expenses (state (snd (loadExpenses Sample.firstRender Scenario.listingDiskFull
                          (worldOf Sample.firstRender (Some [Sample.pendingTea])))))
  = [Sample.pendingTea].
Proof.
  split; [reflexivity |]. split; [reflexivity |].
  destruct (loadExpenses_one_source Sample.firstRender Scenario.listingDiskFull
              (worldOf Sample.firstRender (Some [Sample.pendingTea])))
    as (_ & _ & _ & _ & Hrejected & _).
  exact (proj2 (Hrejected
    (mkJson true (Some [Sample.rent; Sample.lunch]) (Some 42%Z) None)
    [Sample.rent; Sample.lunch] eq_refl eq_refl eq_refl eq_refl eq_refl)).
Defined.

(** C3 (as stated) fails: on a first render (flag online) the backend
    answers the fetch with an error status while the local store holds a
    snapshot; the snapshot is not read and the collection stays empty. *)
Lemma loadExpenses_error_status_no_fallback :
  isOnline Sample.firstRender = true /\
  net Sample.serverError 0 = Arrived (mkResponse false None) /\
  storage (worldOf Sample.firstRender (Some [Sample.syncedRent]))
  = Some [Sample.syncedRent] /\
  expenses (state (snd (loadExpenses Sample.firstRender Sample.serverError
                          (worldOf Sample.firstRender (Some [Sample.syncedRent])))))
  = [] /\
  ~ In GetItem (trace (snd (loadExpenses Sample.firstRender Sample.serverError
                              (worldOf Sample.firstRender (Some [Sample.syncedRent]))))).
Proof.
  repeat split; try reflexivity. simpl. intuition discriminate.
Qed.

(** ** The sync batch *)

Lemma pushes_app (a b : list Event) : pushes (a ++ b) = pushes a ++ pushes b.
Proof.
  induction a as [|e a IH]; simpl; [reflexivity |].
  destruct e; simpl; now rewrite IH.
Qed.

Lemma reloads_app (a b : list Event) : reloads (a ++ b) = reloads a + reloads b.
Proof.
  induction a as [|e a IH]; simpl; [reflexivity |].
  destruct e; simpl; now rewrite IH.
Qed.

Lemma probesIn_app (a b : list Event) : probesIn (a ++ b) = probesIn a + probesIn b.
Proof.
  induction a as [|e a IH]; simpl; [reflexivity |].
  destruct e; simpl; now rewrite IH.
Qed.

(** With a local store that never rejects, [firstThrow] is the first
    index at which the fetch of the batch throws. *)
Lemma firstThrow_reliable_store (env : Env)
    (Hstore : forall n, setItemFails env n = false) :
  forall count f s k,
    firstThrow env f s count = Some k <->
    k < count /\ throws (net env (f + k)) = true /\
    forall i, i < k -> throws (net env (f + i)) = false.
Proof.
  induction count as [|count IH]; intros f s k; simpl.
  - split; [discriminate | intros (H & _); lia].
  - unfold pushThrows. rewrite Hstore, andb_false_r, orb_false_r.
    destruct (throws (net env f)) eqn:Hf.
    + split.
      * intros H. inversion H; subst. rewrite Nat.add_0_r.
        repeat split; [lia | exact Hf | intros i Hi; lia].
      * intros (_ & _ & Hbefore). destruct k as [|k]; [reflexivity |].
        specialize (Hbefore 0 (Nat.lt_0_succ k)).
        rewrite Nat.add_0_r in Hbefore. congruence.
    + destruct (firstThrow env (S f)
                  (if succeeded (net env f) then S s else s) count)
        as [k'|] eqn:Hrec; simpl.
      * apply IH in Hrec. destruct Hrec as (Hlt & Hthrow & Hbefore).
        split.
        -- intros H. inversion H; subst.
           repeat split; [lia | now rewrite Nat.add_succ_r |].
           intros i Hi. destruct i as [|i]; [now rewrite Nat.add_0_r |].
           rewrite Nat.add_succ_r. apply Hbefore. lia.
        -- intros (Hk & Hkt & Hkb). f_equal.
           destruct k as [|k];
             [rewrite Nat.add_0_r in Hkt; congruence |].
           f_equal.
           destruct (Nat.lt_trichotomy k k') as [Hlt' | [Heq | Hgt]];
             [| exact (eq_sym Heq) |].
           ++ specialize (Hbefore k Hlt').
              rewrite Nat.add_succ_r in Hkt. simpl in Hbefore. congruence.
           ++ assert (Hs : S k' < S k) by lia.
              specialize (Hkb (S k') Hs).
              rewrite Nat.add_succ_r in Hkb. simpl in Hthrow. congruence.
      * split; [discriminate |].
        intros (Hk & Hkt & Hkb). exfalso.
        destruct k as [|k]; [rewrite Nat.add_0_r in Hkt; congruence |].
        assert (Hex : exists k0, firstThrow env (S f)
                        (if succeeded (net env f) then S s else s) count = Some k0).
        { clear Hrec.
          assert (Hgen : forall count f s k,
                    k < count -> throws (net env (f + k)) = true ->
                    exists k0, firstThrow env f s count = Some k0).
          { clear. intros count. induction count as [|count IHc];
              intros f s k Hlt Ht; [lia |].
            simpl. unfold pushThrows.
            destruct (throws (net env f)) eqn:Hf; simpl; [eauto |].
            destruct (succeeded (net env f) && setItemFails env s); [eauto |].
            destruct k as [|k]; [rewrite Nat.add_0_r in Ht; congruence |].
            destruct (IHc (S f) (if succeeded (net env f) then S s else s) k)
              as (k0 & ->); [lia | now rewrite Nat.add_succ_r in Ht |].
            simpl. eauto. }
          apply (Hgen count (S f) _ k); [lia |].
          now rewrite Nat.add_succ_r in Hkt. }
        destruct Hex as (k0 & Hk0). congruence.
Qed.

(** One push: the request goes out, the call throws exactly when
    [pushThrows] says so, a throw or an error status sets the flag to
    false, nothing sets it to true, and the collection is either left or
    set to the render's list with the confirmation applied. *)
Lemma saveExpenseToBackend_spec (r : Render) (e : Expense.t) env w :
  let res := saveExpenseToBackend r e env w in
  let w' := snd res in
  (exists new, trace w' = trace w ++ SaveExpenses e :: new /\ Quiet new) /\
  fetches w' = S (fetches w) /\
  probes w' = probes w /\
  setItems w' = (if succeeded (net env (fetches w)) then S (setItems w) else setItems w) /\
  fst res = (if pushThrows env (fetches w) (setItems w) then Throw else Normal tt) /\
  (pushThrows env (fetches w) (setItems w) = true -> isOnline (state w') = false) /\
  (isOnline (state w) = false -> isOnline (state w') = false) /\
  (forall resp, net env (fetches w) = Arrived resp -> ok resp = false ->
                isOnline (state w') = false) /\
  (expenses (state w') = expenses (state w) \/
   exists j, expenses (state w') = map (confirmed e j) (expenses r)).
Proof.
  intros res w'. subst res w'.
  unfold saveExpenseToBackend, pushThrows, throws, succeeded. unfold_prims. simpl.
  repeat (step_io; simpl);
  (split; [eexists; split; [rewrite <- ?app_assoc; reflexivity
                           | repeat split] |]);
  repeat (split; [solve [reflexivity | auto | intros; discriminate
                        | intros ? Hn Hk; inversion Hn; subst; auto;
                          discriminate] |]);
  first [ left; reflexivity | right; eexists; reflexivity ].
Qed.

(** The batch: pushes go out in list order up to and including the first
    one that throws, and all of them when none throws. *)
Lemma forOf_saveExpenseToBackend_spec (r : Render) (env : Env) :
  forall (l : list Expense.t) (w : World),
  let res := forOf l (saveExpenseToBackend r) env w in
  let w' := snd res in
  exists new,
    trace w' = trace w ++ new /\
    reloads new = 0 /\ probesIn new = 0 /\
    match firstThrow env (fetches w) (setItems w) (length l) with
    | Some k =>
        fst res = Throw /\ pushes new = firstn (S k) l /\
        isOnline (state w') = false
    | None => fst res = Normal tt /\ pushes new = l
    end /\
    (isOnline (state w) = false -> isOnline (state w') = false) /\
    (forall i resp,
       i < length (pushes new) -> net env (fetches w + i) = Arrived resp ->
       ok resp = false -> isOnline (state w') = false) /\
    (expenses (state w') = expenses (state w) \/
     exists e j, In e (pushes new) /\
                 expenses (state w') = map (confirmed e j) (expenses r)).
Proof.
  induction l as [|x l IH]; intros w res w'; subst res w'.
  - exists []. simpl. rewrite app_nil_r.
    repeat split; auto. intros i resp Hi. inversion Hi.
  - simpl forOf. unfold bind.
    pose proof (saveExpenseToBackend_spec r x env w) as Hx. simpl in Hx.
    destruct Hx as ((n1 & Ht1 & Hq1 & Hr1 & Hp1) & Hf1 & _ & Hs1 & Hres1 &
                    Hthrow1 & Hmono1 & Herr1 & Hcol1).
    destruct (saveExpenseToBackend r x env w) as [c1 w1]. simpl in *.
    destruct (pushThrows env (fetches w) (setItems w)) eqn:Hpt.
    + subst c1. simpl.
      exists (SaveExpenses x :: n1). simpl. rewrite Hq1, Hr1, Hp1.
      repeat split; auto.
      destruct Hcol1 as [Hc | (j & Hc)]; [now left |].
      right. exists x, j. split; [now left | exact Hc].
    + subst c1.
      specialize (IH w1). simpl in IH.
      destruct IH as (n2 & Ht2 & Hr2 & Hp2 & Hmatch & Hmono2 & Herr2 & Hcol2).
      rewrite Hf1, Hs1 in Hmatch.
      exists (SaveExpenses x :: n1 ++ n2).
      split; [rewrite Ht2, Ht1, <- app_assoc; reflexivity |].
      simpl. rewrite reloads_app, probesIn_app, pushes_app, Hq1, Hr1, Hp1, Hr2, Hp2.
      simpl.
      split; [reflexivity |]. split; [reflexivity |].
      split.
      { destruct (firstThrow env (S (fetches w))
                    (if succeeded (net env (fetches w)) then S (setItems w)
                     else setItems w) (length l)) as [k|]; simpl.
        - destruct Hmatch as (Hc & Hpush & Hoff).
          repeat split; auto. now rewrite Hpush.
        - destruct Hmatch as (Hc & Hpush).
          split; auto. now rewrite Hpush. }
      split; [auto |].
      split.
      { intros i resp Hi Hn Hk. destruct i as [|i].
        - rewrite Nat.add_0_r in Hn. apply Hmono2. eauto.
        - apply (Herr2 i resp); auto.
          + simpl in Hi. lia.
          + rewrite Hf1. rewrite <- Hn. f_equal. lia. }
      destruct Hcol2 as [Hc2 | (e & j & Hin & Hc2)].
      * rewrite Hc2.
        destruct Hcol1 as [Hc1 | (j & Hc1)]; [now left |].
        right. exists x, j. split; [now left | exact Hc1].
      * right. exists e, j. split; [now right | exact Hc2].
Qed.

(** A reload: one request, no push or probe, and the flag is never set
    to true. *)
Lemma loadDataFromDatabase_spec (env : Env) (w : World) :
  let w' := snd (loadDataFromDatabase env w) in
  (exists new, trace w' = trace w ++ LoadExpenses :: new /\ Quiet new) /\
  (isOnline (state w) = false -> isOnline (state w') = false).
Proof.
  intros w'. subst w'.
  unfold loadDataFromDatabase. unfold_prims. simpl.
  repeat (step_io; simpl);
  (split; [eexists; split; [rewrite <- ?app_assoc; reflexivity
                           | repeat split] | auto]).
Qed.

(** [syncWithBackend]: the unsynced records of its argument are pushed
    in list order; the first push that throws ends the batch, sets the
    flag to false and skips the reload; when none throws, every record
    of the batch is pushed and one reload follows (none for an empty
    batch); an error status on a push sets the flag to false without
    ending the batch. *)
Lemma syncWithBackend_spec (r : Render) (l : list Expense.t) env w :
  let batch := filter Expense.unsynced l in
  let w' := snd (syncWithBackend r l env w) in
  exists new,
    trace w' = trace w ++ new /\
    probesIn new = 0 /\
    match firstThrow env (fetches w) (setItems w) (length batch) with
    | Some k =>
        pushes new = firstn (S k) batch /\ reloads new = 0 /\
        isOnline (state w') = false /\
        (expenses (state w') = expenses (state w) \/
         exists e j, In e (firstn (S k) batch) /\
                     expenses (state w') = map (confirmed e j) (expenses r))
    | None =>
        pushes new = batch /\
        reloads new = match batch with [] => 0 | _ => 1 end
    end /\
    (isOnline (state w) = false -> isOnline (state w') = false) /\
    (forall i resp,
       i < length (pushes new) -> net env (fetches w + i) = Arrived resp ->
       ok resp = false -> isOnline (state w') = false).
Proof.
  intros batch w'. subst w'.
  unfold syncWithBackend. fold batch.
  destruct batch as [|b batch'] eqn:Hb.
  - simpl. exists []. rewrite app_nil_r.
    repeat split; auto. intros i resp Hi. inversion Hi.
  - rewrite <- Hb. replace (length batch =? 0)%nat with false
      by (rewrite Hb; reflexivity).
    unfold tryCatch, bind.
    destruct (forOf_saveExpenseToBackend_spec r env batch w)
      as (n1 & Ht1 & Hr1 & Hp1 & Hmatch & Hmono1 & Herr1 & Hcol1).
    destruct (forOf batch (saveExpenseToBackend r) env w) as [c1 w1].
    simpl in Ht1, Hmatch, Hmono1, Herr1, Hcol1.
    destruct (firstThrow env (fetches w) (setItems w) (length batch)) as [k|].
    + destruct Hmatch as (Hc & Hpush & Hoff). subst c1. simpl.
      exists (n1 ++ [ToastShow WARNING "Sync Failed"
                      "Could not sync with server. Data saved locally."]).
      rewrite Ht1, <- app_assoc, probesIn_app, pushes_app, reloads_app,
        Hp1, Hr1, Hpush, app_nil_r. simpl.
      repeat split; auto.
      rewrite <- Hpush. exact Hcol1.
    + destruct Hmatch as (Hc & Hpush). subst c1.
      destruct (loadDataFromDatabase_spec env w1)
        as ((n2 & Ht2 & Hq2 & Hr2 & Hp2) & Hmono2).
      destruct (loadDataFromDatabase env w1) as [c2 w2].
      simpl in Ht2, Hmono2.
      assert (Hlen : forall t, length (pushes (n1 ++ LoadExpenses :: n2 ++ t))
                               = length (pushes n1 ++ pushes t)).
      { intros t. rewrite pushes_app. simpl. now rewrite pushes_app, Hq2. }
      destruct c2 as [[]|]; simpl.
      * exists (n1 ++ LoadExpenses :: n2).
        rewrite Ht2, Ht1, <- app_assoc, probesIn_app, pushes_app, reloads_app.
        simpl. rewrite Hp1, Hr1, Hp2, Hr2, Hq2, Hpush, app_nil_r, Hb.
        repeat split; auto.
        intros i resp Hi Hn Hk. apply Hmono2.
        apply (Herr1 i resp); auto. now rewrite Hpush, Hb.
      * exists (n1 ++ LoadExpenses :: n2 ++
                [ToastShow WARNING "Sync Failed"
                   "Could not sync with server. Data saved locally."]).
        rewrite Ht2, Ht1, <- !app_assoc, probesIn_app, pushes_app, reloads_app.
        simpl. rewrite probesIn_app, pushes_app, reloads_app.
        rewrite Hp1, Hr1, Hp2, Hr2, Hq2, Hpush, Hb. simpl.
        rewrite app_nil_r.
        repeat split; auto.
        intros i resp Hi Hn Hk. apply Hmono2.
        apply (Herr1 i resp); auto. now rewrite Hpush, Hb.
Qed.

Lemma In_skipn_In {A} (n : nat) (l : list A) (x : A) :
  In x (skipn n l) -> In x l.
Proof.
  intros H. rewrite <- (firstn_skipn n l). apply in_or_app. now right.
Qed.

Lemma NoDup_map_app_distinct {A B} (f : A -> B) (a b : list A) (x y : A) :
  NoDup (map f (a ++ b)) -> In x a -> In y b -> f x <> f y.
Proof.
  induction a as [|a0 a IH]; simpl; intros Hnd Hx Hy; [contradiction |].
  inversion Hnd as [|? ? Hnotin Hnd']; subst.
  destruct Hx as [-> | Hx].
  - intros Heq. apply Hnotin. rewrite Heq. apply in_map.
    apply in_or_app. now right.
  - now apply IH.
Qed.

(** Unique ids stay unique in any selection of the records. *)
Lemma unique_ids_filter (keep : Expense.t -> bool) (records : list Expense.t) :
  NoDup (map Expense.id records) ->
  NoDup (map Expense.id (filter keep records)).
Proof.
  intros Hnd. induction records as [|x rest IH]; simpl; [constructor |].
  simpl in Hnd. inversion Hnd as [|? ? Hnotin Hnd']; subst.
  destruct (keep x); simpl; auto.
  constructor; auto.
  intros Hin. apply Hnotin.
  apply in_map_iff in Hin. destruct Hin as (y & Hy & Hin).
  apply filter_In in Hin. rewrite <- Hy. apply in_map. tauto.
Qed.

(** The records a halted batch did not reach are still in the
    collection, as they were. *)
Lemma unreached_stay (r : Render) (new : Expense.t) (k : nat)
    (final : list Expense.t) :
  let batch := filter Expense.unsynced (new :: expenses r) in
  Expense.unsynced new = true ->
  NoDup (map Expense.id (new :: expenses r)) ->
  (final = new :: expenses r \/
   exists e j, In e (firstn (S k) batch) /\
               final = map (confirmed e j) (expenses r)) ->
  forall exp, In exp (skipn (S k) batch) ->
              In exp final /\ Expense.unsynced exp = true.
Proof.
  intros batch Hnew Hnd Hfinal exp Hexp.
  assert (Hbatch : In exp batch) by (eapply In_skipn_In; eauto).
  assert (Hin : In exp (new :: expenses r) /\ Expense.unsynced exp = true)
    by (apply filter_In; exact Hbatch).
  destruct Hin as (Hin & Hun). split; [| exact Hun].
  assert (Hids : NoDup (map Expense.id (firstn (S k) batch ++ skipn (S k) batch))).
  { rewrite firstn_skipn. now apply unique_ids_filter. }
  destruct Hfinal as [-> | (e & j & He & ->)]; [exact Hin |].
  assert (Hhead : In new (firstn (S k) batch)).
  { subst batch. simpl filter. rewrite Hnew. simpl. now left. }
  apply in_map_iff. exists exp. split.
  - unfold confirmed.
    assert (Hne : Expense.id e <> Expense.id exp)
      by (eapply NoDup_map_app_distinct; eauto).
    destruct (String.eqb_spec (Expense.id exp) (Expense.id e)); congruence.
  - destruct Hin as [<- | Hin]; [| exact Hin].
    exfalso.
    eapply (NoDup_map_app_distinct Expense.id _ _ new new); eauto.
Qed.

(** ** Adding an expense online: the batch *)

(** A declined push only shows the server-error toast. *)
Lemma saveExpenseToBackend_declined (r : Render) (e : Expense.t) env w :
  declined (net env (fetches w)) = true ->
  exists text,
    saveExpenseToBackend r e env w
    = (Normal tt,
       mkWorld (state w) (storage w)
               (trace w ++ [SaveExpenses e; ToastShow DANGER "Server Error" text])
               (S (fetches w)) (probes w) (setItems w) (getItems w)).
Proof.
  intros Hd. unfold saveExpenseToBackend, declined in *. unfold_prims. simpl.
  destruct (net env (fetches w)) as [|[[|] [j|]]]; simpl in *; try discriminate.
  destruct (status j); simpl in *; [discriminate |].
  eexists. rewrite <- app_assoc. reflexivity.
Qed.

(** A batch of declined pushes leaves the state and the local store as
    they were. *)
Lemma forOf_declined (r : Render) (env : Env) :
  forall (l : list Expense.t) (w : World),
    (forall i, i < length l -> declined (net env (fetches w + i)) = true) ->
    fst (forOf l (saveExpenseToBackend r) env w) = Normal tt /\
    state (snd (forOf l (saveExpenseToBackend r) env w)) = state w /\
    storage (snd (forOf l (saveExpenseToBackend r) env w)) = storage w /\
    setItems (snd (forOf l (saveExpenseToBackend r) env w)) = setItems w /\
    fetches (snd (forOf l (saveExpenseToBackend r) env w)) = fetches w + length l.
Proof.
  induction l as [|x l IH]; intros w Hall; simpl.
  - rewrite Nat.add_0_r. repeat split.
  - unfold bind.
    assert (H0 : declined (net env (fetches w)) = true).
    { rewrite <- (Nat.add_0_r (fetches w)). apply Hall. simpl. lia. }
    destruct (saveExpenseToBackend_declined r x env w H0) as (text & ->).
    match goal with
    | |- context [forOf l (saveExpenseToBackend r) env ?w1] =>
        destruct (IH w1) as (Hn & Hs & Hsto & Hset & Hf)
    end.
    { intros i Hi. simpl. rewrite <- Nat.add_succ_r. apply Hall. simpl. lia. }
    simpl in *. rewrite Hn, Hs, Hsto, Hset, Hf. repeat split. lia.
Qed.

(** When the backend declines every push and the reload after them,
    [addExpense] leaves the new record in the collection and in the
    local store and does not touch the flag. *)
Lemma addExpense_all_declined (r : Render) env w :
  valid r -> isOnline r = true ->
  setItemFails env (setItems w) = false ->
  let batch := filter Expense.unsynced (newExpense r env :: expenses r) in
  (forall i, i < length batch -> declined (net env (fetches w + i)) = true) ->
  declined (net env (fetches w + length batch)) = true ->
  state (snd (addExpense r env w))
  = mkRender (newExpense r env :: expenses r) "" "" "Food"
             (isOnline (state w)) (isLoading (state w)) /\
  storage (snd (addExpense r env w)) = Some (newExpense r env :: expenses r).
Proof.
  intros (Ht & Ha & Hn & Hp) Hon Hwrite batch Hall Hreload.
  assert (Hbatch : batch = newExpense r env :: filter Expense.unsynced (expenses r))
    by reflexivity.
  clearbody batch.
  unfold addExpense.
  rewrite (truthy_true _ Ht), (truthy_true _ Ha), Hn, Hp. simpl.
  unfold saveExpenses, syncWithBackend. rewrite Hon.
  cbv beta delta [bind construct setExpenses withState tryCatch setItem ret
                  setTitle setAmount setCategory toast emit] iota zeta.
  cbn [fst snd state storage trace fetches probes setItems getItems].
  rewrite Hwrite. cbv beta iota.
  change (filter Expense.unsynced (newExpense r env :: expenses r))
    with (newExpense r env :: filter Expense.unsynced (expenses r)).
  rewrite <- Hbatch.
  replace (length batch =? 0)%nat with false by (rewrite Hbatch; reflexivity).
  cbv beta iota.
  match goal with
  | |- context [forOf batch (saveExpenseToBackend r) env ?w1] =>
      destruct (forOf_declined r env batch w1 Hall) as (Hnorm & Hs & Hsto & Hset & Hf);
      destruct (forOf batch (saveExpenseToBackend r) env w1) as [c w2]
  end.
  cbn [fst snd state storage trace fetches probes setItems getItems] in *.
  subst c.
  unfold loadDataFromDatabase, declined in *. unfold_prims.
  cbn [fst snd state storage trace fetches probes setItems getItems].
  rewrite Hf.
  destruct (net env (fetches w + length batch)) as [|[[|] [j|]]];
    simpl in *; try discriminate.
  destruct (status j); simpl in *; [discriminate |].
  rewrite Hs, Hsto. split; reflexivity.
Qed.

(** C1 (as amended): when the flag is online and the local write
    succeeds, [addExpense] pushes the unsynced records of the updated
    list (the new one first) in list order, and never throws.  The first
    push that throws (its fetch rejects, the body cannot be read, or the
    write after a confirmed create rejects) sets the flag to false and
    ends the batch: the records after it are not pushed, no reload
    follows, and with unique ids they are still in the collection,
    unsynced.  A push answered with an error status sets the flag to
    false but does not end the batch.  A push answered status:false only
    shows a toast: when every push and the reload after them are
    answered status:false, the flag is as it was and the collection and
    the local store hold the updated list.  When no push throws, every
    record of the batch is pushed, and when all of them are confirmed
    one reload follows. *)
Theorem addExpense_batch_halts_on_throw (r : Render) (env : Env) (w : World)
    (Hv : valid r) (Hon : isOnline r = true)
    (Hwrite : setItemFails env (setItems w) = false) :
  let batch := filter Expense.unsynced (newExpense r env :: expenses r) in
  let w' := snd (addExpense r env w) in
  fst (addExpense r env w) = Normal tt /\
  (exists new,
    trace w' = trace w ++ new /\
    match firstThrow env (fetches w) (S (setItems w)) (length batch) with
    | Some k =>
        pushes new = firstn (S k) batch /\ reloads new = 0 /\
        isOnline (state w') = false /\
        (NoDup (map Expense.id (newExpense r env :: expenses r)) ->
         forall exp, In exp (skipn (S k) batch) ->
                     In exp (expenses (state w')) /\ Expense.unsynced exp = true)
    | None =>
        pushes new = batch /\
        ((forall i, i < length batch ->
                    succeeded (net env (fetches w + i)) = true) ->
         reloads new = 1)
    end /\
    (forall i resp,
       i < length (pushes new) -> net env (fetches w + i) = Arrived resp ->
       ok resp = false -> isOnline (state w') = false)) /\
  ((forall i, i < length batch -> declined (net env (fetches w + i)) = true) ->
   declined (net env (fetches w + length batch)) = true ->
   state w' = mkRender (newExpense r env :: expenses r) "" "" "Food"
                       (isOnline (state w)) (isLoading (state w)) /\
   storage w' = Some (newExpense r env :: expenses r)).
Proof.
  intros batch w'. subst w'.
  split; [| split; [| exact (addExpense_all_declined r env w Hv Hon Hwrite)]].
  { destruct Hv as (Ht & Ha & Hn & Hp).
    unfold addExpense.
    rewrite (truthy_true _ Ht), (truthy_true _ Ha), Hn, Hp. simpl.
    unfold_prims. simpl.
    match goal with
    | |- context [saveExpenses r ?l env ?w1] =>
        pose proof (saveExpenses_normal r l env w1) as Hnorm;
        destruct (saveExpenses r l env w1) as [c w2]
    end.
    simpl in Hnorm. subst c. reflexivity. }
  assert (Hbatch : batch = filter Expense.unsynced (newExpense r env :: expenses r))
    by reflexivity.
  clearbody batch.
  remember (firstThrow env (fetches w) (S (setItems w)) (length batch)) as ft eqn:Hft.
  destruct Hv as (Ht & Ha & Hn & Hp).
  unfold addExpense.
  rewrite (truthy_true _ Ht), (truthy_true _ Ha), Hn, Hp. simpl.
  unfold saveExpenses. rewrite Hon.
  unfold_prims. simpl. rewrite Hwrite.
  match goal with
  | |- context [syncWithBackend r ?l env ?w1] =>
      pose proof (syncWithBackend_normal r l env w1) as Hnorm;
      pose proof (syncWithBackend_spec r l env w1) as Hspec;
      destruct (syncWithBackend r l env w1) as [c w2]
  end.
  cbv zeta in Hspec. cbn [fst snd fetches setItems state expenses trace] in Hspec, Hnorm.
  rewrite <- Hbatch, <- Hft in Hspec.
  destruct Hspec as (new & Htr & _ & Hmatch & _ & Herr).
  subst c. simpl.
  exists (SetItem (newExpense r env :: expenses r) :: new ++
          [ToastShow SUCCESS "Success" "Expense added successfully"]).
  split; [rewrite Htr, <- !app_assoc; reflexivity |].
  cbn [pushes reloads]. rewrite pushes_app, reloads_app.
  cbn [pushes reloads]. rewrite app_nil_r, Nat.add_0_r.
  split; [| exact Herr].
  destruct ft as [k|].
  - destruct Hmatch as (Hpush & Hrel & Hoff & Hcol).
    repeat split; auto;
      rewrite Hbatch in *;
      eapply (unreached_stay r (newExpense r env) k); eauto.
  - destruct Hmatch as (Hpush & Hrel).
    split; [exact Hpush |]. intros _. rewrite Hrel.
    rewrite Hbatch. reflexivity.
Qed.

Lemma valid_coffeeAfterTea : valid Sample.coffeeAfterTea.
Proof. repeat split; simpl; discriminate. Qed.

Lemma addExpense_batch_halts_on_throw_witness :
  valid Sample.coffeeAfterTea /\
  isOnline Sample.coffeeAfterTea = true /\
  setItemFails Sample.unreachable 0 = false /\
  exists new,
    trace (snd (addExpense Sample.coffeeAfterTea Sample.unreachable
                  (worldOf Sample.coffeeAfterTea None)))
    = [] ++ new /\
    pushes new = [Sample.coffeeRecord] /\
    reloads new = 0 /\
    In Sample.pendingTea
       (expenses (state (snd (addExpense Sample.coffeeAfterTea Sample.unreachable
                                (worldOf Sample.coffeeAfterTea None))))).
Proof.
  split; [exact valid_coffeeAfterTea |].
  split; [reflexivity |]. split; [reflexivity |].
  destruct (addExpense_batch_halts_on_throw Sample.coffeeAfterTea
              Sample.unreachable (worldOf Sample.coffeeAfterTea None)
              valid_coffeeAfterTea eq_refl eq_refl)
    as (_ & (new & Htr & Hmatch & _) & _).
  exists new. split; [exact Htr |].
  change (firstThrow Sample.unreachable 0 1
            (length (filter Expense.unsynced
                       (newExpense Sample.coffeeAfterTea Sample.unreachable
                        :: expenses Sample.coffeeAfterTea))))
    with (Some 0) in Hmatch.
  destruct Hmatch as (Hpush & Hrel & _ & Hrest).
  split; [exact Hpush |]. split; [exact Hrel |].
  apply Hrest.
  - repeat constructor; simpl; intuition discriminate.
  - simpl. now left.
Defined.

(** C1 (as stated) fails: online, with an older record pending, the
    push of the new record is answered with an error status; that push
    failed, yet the older record is pushed after it. *)
Lemma addExpense_error_status_does_not_halt :
  valid Sample.coffeeAfterTea /\
  isOnline Sample.coffeeAfterTea = true /\
  net Sample.serverError 0 = Arrived (mkResponse false None) /\
  pushes (trace (snd (addExpense Sample.coffeeAfterTea Sample.serverError
                        (worldOf Sample.coffeeAfterTea None))))
  = [Sample.coffeeRecord; Sample.pendingTea].
Proof.
  split; [exact valid_coffeeAfterTea |].
  repeat split; reflexivity.
Qed.

(** ** Retrying the sync *)

(** C5 (as amended): [retrySync] never throws.  When the flag is online
    it makes no probe and runs [syncWithBackend] on the collection, the
    same batch logic as [addExpense]: the unsynced records are pushed in
    order up to the first push that throws; a full reload follows only
    when the batch is not empty and no push throws.  When the flag is
    offline it probes once; if the probe finds the backend unreachable,
    nothing is pushed or reloaded, the offline warning is shown, and the
    collection and the local store are unchanged. *)
Theorem retrySync_behaviour (r : Render) (env : Env) (w : World) :
  let batch := filter Expense.unsynced (expenses r) in
  let w' := snd (retrySync r env w) in
  fst (retrySync r env w) = Normal tt /\
  exists new,
    trace w' = trace w ++ new /\
    if isOnline r then
      probesIn new = 0 /\
      (exists w1,
         syncWithBackend r (expenses r) env w = (Normal tt, w1) /\
         w' = emit (ToastShow SUCCESS "Sync Complete"
                      "All expenses synced with server") w1) /\
      match firstThrow env (fetches w) (setItems w) (length batch) with
      | Some k => pushes new = firstn (S k) batch /\ reloads new = 0
      | None =>
          pushes new = batch /\
          reloads new = match batch with [] => 0 | _ => 1 end
      end
    else
      probesIn new = 1 /\
      (probeResult env w = false ->
       pushes new = [] /\ reloads new = 0 /\
       In (ToastShow WARNING "Offline" "No internet connection available") new /\
       expenses (state w') = expenses (state w) /\
       storage w' = storage w /\
       isOnline (state w') = false).
Proof.
  intros batch w'. subst w'.
  assert (Hbatch : batch = filter Expense.unsynced (expenses r)) by reflexivity.
  clearbody batch.
  unfold retrySync. destruct (isOnline r) eqn:Hon; simpl negb; cbv iota.
  - unfold tryCatch, bind, ret.
    pose proof (syncWithBackend_normal r (expenses r) env w) as Hnorm.
    pose proof (syncWithBackend_spec r (expenses r) env w) as Hspec.
    cbv zeta in Hspec. rewrite <- Hbatch in Hspec.
    destruct (syncWithBackend r (expenses r) env w) as [c w1].
    simpl in Hnorm, Hspec. subst c.
    destruct Hspec as (new & Htr & Hprobe & Hmatch & _).
    unfold toast. simpl.
    split; [reflexivity |].
    exists (new ++ [ToastShow SUCCESS "Sync Complete"
                      "All expenses synced with server"]).
    split; [rewrite Htr, <- app_assoc; reflexivity |].
    rewrite probesIn_app, pushes_app, reloads_app, app_nil_r, Hprobe.
    simpl. rewrite Nat.add_0_r.
    split; [reflexivity |].
    split; [exists w1; split; reflexivity |].
    destruct (firstThrow env (fetches w) (setItems w) (length batch));
      tauto.
  - unfold checkNetworkStatus, probeResult. unfold_prims. simpl.
    repeat (step_io; simpl);
    (split; [reflexivity |]);
    (eexists; split; [rewrite <- ?app_assoc; reflexivity |]);
    (split; [reflexivity |]);
    intros ?; try discriminate;
    repeat split; simpl; auto.
Qed.

(** C5 (as stated) fails: with the flag online and one pending record
    whose push is rejected, [retrySync] makes no probe, and no reload
    follows the push. *)
Lemma retrySync_online_no_probe_no_reload :
  isOnline (Sample.teaAndRent true) = true /\
  probesIn (trace (snd (retrySync (Sample.teaAndRent true) Sample.unreachable
                          (worldOf (Sample.teaAndRent true) None)))) = 0 /\
  pushes (trace (snd (retrySync (Sample.teaAndRent true) Sample.unreachable
                        (worldOf (Sample.teaAndRent true) None))))
  = [Sample.pendingTea] /\
  reloads (trace (snd (retrySync (Sample.teaAndRent true) Sample.unreachable
                         (worldOf (Sample.teaAndRent true) None)))) = 0.
Proof. repeat split; reflexivity. Qed.

Lemma retrySync_behaviour_witness :
  probeResult Sample.unreachable (worldOf (Sample.teaAndRent false) None) = false /\
  expenses (state (snd (retrySync (Sample.teaAndRent false) Sample.unreachable
                          (worldOf (Sample.teaAndRent false) None))))
  = expenses (Sample.teaAndRent false).
Proof.
  split; [reflexivity |].
  destruct (retrySync_behaviour (Sample.teaAndRent false) Sample.unreachable
              (worldOf (Sample.teaAndRent false) None))
    as (_ & new & _ & Hbranch).
  simpl in Hbranch. destruct Hbranch as (_ & Hoffline).
  exact (proj1 (proj2 (proj2 (proj2 (Hoffline eq_refl))))).
Defined.

(** ** Further properties of the handlers *)

(** *** No handler lets an exception escape *)

Lemma checkNetworkStatus_normal env w :
  fst (checkNetworkStatus env w) = Normal tt.
Proof.
  apply unit_normal. unfold checkNetworkStatus.
  apply tryCatch_normal. intros w1. now exists tt.
Qed.

Lemma addExpense_normal (r : Render) env w :
  fst (addExpense r env w) = Normal tt.
Proof.
  unfold addExpense.
  destruct (negb (Js.truthy (Js.trim (title r)))
            || negb (Js.truthy (Js.trim (amount r)))); [reflexivity |].
  destruct (Js.isNaN (Js.parseFloat (amount r))
            || Js.le0 (Js.parseFloat (amount r))); [reflexivity |].
  unfold_prims. simpl.
  match goal with
  | |- context [saveExpenses r ?l env ?w1] =>
      pose proof (saveExpenses_normal r l env w1) as Hn;
      destruct (saveExpenses r l env w1) as [c w2]
  end.
  simpl in Hn. subst c. reflexivity.
Qed.

Lemma loadExpenses_normal (r : Render) env w :
  fst (loadExpenses r env w) = Normal tt.
Proof.
  unfold loadExpenses, tryFinally.
  match goal with
  | |- context [tryCatch ?b ?h env w] =>
      assert (Hn : fst (tryCatch b h env w) = Normal tt);
      [| destruct (tryCatch b h env w) as [c w1]; exact Hn]
  end.
  apply unit_normal, tryCatch_normal. intros w1.
  unfold bind, toast.
  match goal with
  | |- context [tryCatch ?b ?h env ?w2] =>
      destruct (tryCatch_normal b h env w2) as (a & Ha);
      [intros w3; now exists tt | exists a; exact Ha]
  end.
Qed.

Lemma deleteExpense_normal (r : Render) (id : string) env w :
  fst (deleteExpense r id env w) = Normal tt.
Proof.
  unfold deleteExpense, tryFinally.
  match goal with
  | |- context [tryCatch ?b ?h env w] =>
      assert (Hn : fst (tryCatch b h env w) = Normal tt);
      [| destruct (tryCatch b h env w) as [c w1]; exact Hn]
  end.
  apply unit_normal, tryCatch_normal. intros w1. now exists tt.
Qed.

Lemma retrySync_normal (r : Render) env w :
  fst (retrySync r env w) = Normal tt.
Proof.
  unfold retrySync, bind.
  destruct (isOnline r); simpl.
  - apply unit_normal, tryCatch_normal. intros w1. now exists tt.
  - pose proof (checkNetworkStatus_normal env w) as Hn.
    destruct (checkNetworkStatus env w) as [c w1]. simpl in Hn. subst c.
    reflexivity.
Qed.

(** X1: the handlers a user triggers ([loadExpenses], [addExpense],
    [deleteExpense], [retrySync], and the probe) complete normally for
    every render, every input and every answer of the network and of the
    local store: no rejection or unreadable body escapes them. *)
Theorem handlers_never_throw (r : Render) (id : string) (env : Env) (w : World) :
  fst (checkNetworkStatus env w) = Normal tt /\
  fst (loadExpenses r env w) = Normal tt /\
  fst (addExpense r env w) = Normal tt /\
  fst (deleteExpense r id env w) = Normal tt /\
  fst (retrySync r env w) = Normal tt.
Proof.
  repeat split.
  - apply checkNetworkStatus_normal.
  - apply loadExpenses_normal.
  - apply addExpense_normal.
  - apply deleteExpense_normal.
  - apply retrySync_normal.
Qed.

(** *** What an accepted input leaves behind *)

Lemma trimEnd_idempotent (s : string) : Js.trimEnd (Js.trimEnd s) = Js.trimEnd s.
Proof.
  induction s as [|c s IH]; simpl; [reflexivity |].
  destruct (Js.trimEnd s) as [|c' s'] eqn:E.
  - destruct (Js.isWhiteSpace c) eqn:Hc; simpl; [reflexivity |].
    now rewrite Hc.
  - change (Js.trimEnd (String c (String c' s')) = String c (String c' s')).
    simpl. simpl in IH. now rewrite IH.
Qed.

Lemma trimStart_head (s : string) :
  Js.trimStart s = "" \/
  exists c t, Js.trimStart s = String c t /\ Js.isWhiteSpace c = false.
Proof.
  induction s as [|c s IH]; simpl; [now left |].
  destruct (Js.isWhiteSpace c) eqn:Hc; [exact IH |].
  right. now exists c, s.
Qed.

Lemma trimEnd_keeps_head (c : ascii) (t : string) :
  Js.isWhiteSpace c = false -> exists t', Js.trimEnd (String c t) = String c t'.
Proof.
  intros Hc. simpl. destruct (Js.trimEnd t); [rewrite Hc |]; eauto.
Qed.

Lemma trim_idempotent (s : string) : Js.trim (Js.trim s) = Js.trim s.
Proof.
  unfold Js.trim.
  destruct (trimStart_head s) as [E | (c & t & E & Hc)]; rewrite E.
  - reflexivity.
  - destruct (trimEnd_keeps_head c t Hc) as (t' & Et).
    rewrite Et. simpl Js.trimStart. rewrite Hc, <- Et.
    apply trimEnd_idempotent.
Qed.

(** X2: the record built from an accepted input keeps the invariants of
    the data model: its title is not empty and is already trimmed, its
    amount is greater than zero, its category is the selected one, it is
    unsynced and has no backend id. *)
Theorem newExpense_well_formed (r : Render) (env : Env) (Hv : valid r) :
  Expense.title (newExpense r env) <> "" /\
  Js.trim (Expense.title (newExpense r env)) = Expense.title (newExpense r env) /\
  positive (Expense.amount (newExpense r env)) /\
  Expense.category (newExpense r env) = category r /\
  Expense.unsynced (newExpense r env) = true /\
  Expense.backendId (newExpense r env) = None.
Proof.
  destruct Hv as (Ht & _ & Hn & Hp). simpl.
  repeat split; auto.
  - apply trim_idempotent.
  - destruct (Js.parseFloat (amount r)) as [|negative|q]; simpl in *;
      [discriminate | exact Hp |].
    apply Qnot_le_lt. intros Hle.
    apply Qle_bool_iff in Hle. congruence.
Qed.

Lemma newExpense_well_formed_witness :
  valid (Sample.coffee false) /\
  positive (Expense.amount (newExpense (Sample.coffee false) Sample.unreachable)).
Proof.
  split; [exact (valid_coffee false) |].
  exact (proj1 (proj2 (proj2
    (newExpense_well_formed (Sample.coffee false) Sample.unreachable
       (valid_coffee false))))).
Defined.

Lemma addExpense_offline_state (r : Render) env w :
  valid r -> isOnline r = false ->
  state (snd (addExpense r env w))
  = mkRender (newExpense r env :: expenses r) "" "" "Food"
             (isOnline (state w)) (isLoading (state w)).
Proof.
  intros (Ht & Ha & Hn & Hp) Hoff.
  unfold addExpense, saveExpenses.
  rewrite (truthy_true _ Ht), (truthy_true _ Ha), Hn, Hp, Hoff. simpl.
  unfold_prims. simpl.
  destruct (setItemFails env (setItems w)); reflexivity.
Qed.

(** X3: an accepted [addExpense] always clears the form (title and
    amount empty, category back to Food) and always ends with the
    success toast, whatever the connectivity flag and whatever the local
    write and the sync did. *)
Theorem addExpense_clears_form (r : Render) (env : Env) (w : World)
    (Hv : valid r) :
  let w' := snd (addExpense r env w) in
  title (state w') = "" /\ amount (state w') = "" /\
  category (state w') = "Food" /\
  exists before,
    trace w' = trace w ++ before ++
               [ToastShow SUCCESS "Success" "Expense added successfully"].
Proof.
  intros w'. subst w'.
  destruct Hv as (Ht & Ha & Hn & Hp).
  unfold addExpense.
  rewrite (truthy_true _ Ht), (truthy_true _ Ha), Hn, Hp. simpl.
  unfold_prims. simpl.
  match goal with
  | |- context [saveExpenses r ?l env ?w1] =>
      pose proof (saveExpenses_normal r l env w1) as Hnorm;
      destruct (saveExpenses_first_write r l env w1) as (rest & Htr & _);
      destruct (saveExpenses r l env w1) as [c w2]
  end.
  simpl in Hnorm, Htr. subst c. simpl.
  repeat split.
  eexists. rewrite Htr, <- app_assoc. reflexivity.
Qed.

Lemma addExpense_clears_form_witness :
  valid (Sample.coffee true) /\
  title (state (snd (addExpense (Sample.coffee true) Sample.sharedServer
                       (worldOf (Sample.coffee true) None)))) = "".
Proof.
  split; [exact (valid_coffee true) |].
  exact (proj1 (addExpense_clears_form (Sample.coffee true) Sample.sharedServer
                  (worldOf (Sample.coffee true) None) (valid_coffee true))).
Defined.

(** X4: when the local write of an accepted [addExpense] rejects, the
    sync is skipped even if the flag is online: the only events are the
    write, the save-error toast and then the success toast; the new
    record is in the collection, and the local store is as it was. *)
Theorem addExpense_write_failure (r : Render) (env : Env) (w : World)
    (Hv : valid r) (Hfail : setItemFails env (setItems w) = true) :
  let updated := newExpense r env :: expenses r in
  let w' := snd (addExpense r env w) in
  trace w' = trace w ++
             [SetItem updated;
              ToastShow DANGER "Save Error" "Failed to save expense locally";
              ToastShow SUCCESS "Success" "Expense added successfully"] /\
  expenses (state w') = updated /\
  storage w' = storage w /\
  fetches w' = fetches w.
Proof.
  intros updated w'. subst updated w'.
  destruct Hv as (Ht & Ha & Hn & Hp).
  unfold addExpense, saveExpenses.
  rewrite (truthy_true _ Ht), (truthy_true _ Ha), Hn, Hp. simpl.
  unfold_prims. simpl. rewrite Hfail. simpl.
  rewrite <- !app_assoc. repeat split.
Qed.

Lemma addExpense_write_failure_witness :
  valid (Sample.coffee true) /\
  setItemFails Scenario.diskFull 0 = true /\
  storage (snd (addExpense (Sample.coffee true) Scenario.diskFull
                  (worldOf (Sample.coffee true) None))) = None.
Proof.
  split; [exact (valid_coffee true) |]. split; [reflexivity |].
  exact (proj1 (proj2 (proj2
    (addExpense_write_failure (Sample.coffee true) Scenario.diskFull
       (worldOf (Sample.coffee true) None) (valid_coffee true) eq_refl)))).
Defined.

(** X5: an accepted [addExpense] with the flag offline raises the
    unsynced count of the next render by exactly one. *)
Theorem addExpense_offline_counts_unsynced (r : Render) (env : Env) (w : World)
    (Hv : valid r) (Hoff : isOnline r = false) :
  unsyncedCount (nextRender (snd (addExpense r env w))) = S (unsyncedCount r).
Proof.
  unfold nextRender. rewrite (addExpense_offline_state r env w Hv Hoff).
  reflexivity.
Qed.

Lemma addExpense_offline_counts_unsynced_witness :
  valid (Sample.coffee false) /\ isOnline (Sample.coffee false) = false /\
  unsyncedCount (nextRender (snd (addExpense (Sample.coffee false) Sample.unreachable
                                   (worldOf (Sample.coffee false) None)))) = 1.
Proof.
  split; [exact (valid_coffee false) |]. split; [reflexivity |].
  exact (addExpense_offline_counts_unsynced (Sample.coffee false)
           Sample.unreachable (worldOf (Sample.coffee false) None)
           (valid_coffee false) eq_refl).
Defined.

(** *** Deleting: what always holds *)

(** X6: whatever the backend and the local store answer, [deleteExpense]
    ends by hiding the dialog, and the local removal is never rolled
    back: the collection ends as the prior one without that id, or, when
    the backend confirmed the delete and the reload returned a list, as
    that list marked synced. *)
Theorem deleteExpense_never_restores (r : Render) (id : string)
    (env : Env) (w : World) :
  let w' := snd (deleteExpense r id env w) in
  (exists before, trace w' = trace w ++ before ++ [DialogHide]) /\
  (expenses (state w') = without id (expenses r) \/
   exists j list,
     remoteDeleteSucceeds r id env w = true /\
     net env (S (fetches w)) = Arrived (mkResponse true (Some j)) /\
     status j = true /\ expenseList j = Some list /\
     expenses (state w') = map Expense.markSynced list).
Proof.
  intros w'. subst w'. split.
  - unfold deleteExpense, tryFinally.
    match goal with
    | |- context [tryCatch ?b ?h env w] =>
        assert (Hext : Extends (tryCatch b h));
        [| destruct (Hext env w) as (before & Htr);
           destruct (tryCatch b h env w) as [c w1]]
    end.
    { unfold setExpenses, loadDataFromDatabase, setIsOnline. extends. }
    simpl in *. exists before. now rewrite Htr, <- app_assoc.
  - unfold remoteDeleteSucceeds, succeeded, deleteExpense, loadDataFromDatabase.
    fold (lookup id (expenses r)). fold (without id (expenses r)).
    unfold_prims. simpl.
    destruct (isOnline r && syncedOf (lookup id (expenses r))); simpl;
      repeat (step_io; simpl);
      first [ left; reflexivity
            | right; do 2 eexists; repeat split; eauto ].
Qed.

Lemma deleteExpense_local_branch (r : Render) (id : string) env w :
  isOnline r = false \/ syncedOf (lookup id (expenses r)) = false ->
  expenses (state (snd (deleteExpense r id env w))) = without id (expenses r) /\
  fetches (snd (deleteExpense r id env w)) = fetches w.
Proof.
  intros Hlocal. unfold deleteExpense.
  fold (lookup id (expenses r)). fold (without id (expenses r)).
  assert (Hc : isOnline r && syncedOf (lookup id (expenses r)) = false).
  { destruct Hlocal as [-> | ->]; [reflexivity | apply andb_false_r]. }
  rewrite Hc. unfold_prims. simpl.
  destruct (setItemFails env (setItems w)); split; reflexivity.
Qed.

(** X7: when the flag is offline, or the record is unsynced or absent,
    [deleteExpense] makes no request: it writes the reduced list to the
    local store and reports; if that write rejects, the store keeps its
    old content and the failure toast is shown, but the record has left
    the collection all the same. *)
Theorem deleteExpense_local_only (r : Render) (id : string)
    (env : Env) (w : World)
    (Hlocal : isOnline r = false \/ syncedOf (lookup id (expenses r)) = false) :
  let reduced := without id (expenses r) in
  let w' := snd (deleteExpense r id env w) in
  expenses (state w') = reduced /\
  fetches w' = fetches w /\
  trace w' = trace w ++
             [SetItem reduced;
              if setItemFails env (setItems w)
              then ToastShow DANGER "Delete Failed" "Could not delete expense"
              else ToastShow SUCCESS "Success" "Expense deleted successfully";
              DialogHide] /\
  storage w' = (if setItemFails env (setItems w) then storage w else Some reduced).
Proof.
  intros reduced w'. subst reduced w'.
  unfold deleteExpense.
  fold (lookup id (expenses r)). fold (without id (expenses r)).
  assert (Hc : isOnline r && syncedOf (lookup id (expenses r)) = false).
  { destruct Hlocal as [-> | ->]; [reflexivity | apply andb_false_r]. }
  rewrite Hc. unfold_prims. simpl.
  destruct (setItemFails env (setItems w)); simpl;
    rewrite <- !app_assoc; repeat split.
Qed.

Lemma deleteExpense_local_only_witness :
  (isOnline (Sample.teaAndRent true) = false \/
   syncedOf (lookup "tmp-2" (expenses (Sample.teaAndRent true))) = false) /\
  fetches (snd (deleteExpense (Sample.teaAndRent true) "tmp-2" Sample.unreachable
                  (worldOf (Sample.teaAndRent true) None))) = 0.
Proof.
  assert (H : isOnline (Sample.teaAndRent true) = false \/
              syncedOf (lookup "tmp-2" (expenses (Sample.teaAndRent true))) = false)
    by (right; reflexivity).
  split; [exact H |].
  exact (proj1 (proj2
    (deleteExpense_local_only (Sample.teaAndRent true) "tmp-2" Sample.unreachable
       (worldOf (Sample.teaAndRent true) None) H))).
Defined.

(** X8: adding offline and then deleting the new record in the render
    that follows gives back the prior collection, provided no prior
    record carries the generated id; no request is made on the way. *)
Theorem add_then_delete_restores (r : Render) (env env' : Env) (w : World)
    (Hv : valid r) (Hoff : isOnline r = false)
    (Hfresh : forall exp, In exp (expenses r) -> Expense.id exp <> tmpId env) :
  let added := snd (addExpense r env w) in
  let w' := snd (deleteExpense (nextRender added) (tmpId env) env' added) in
  expenses (state w') = expenses r /\
  fetches w' = fetches w.
Proof.
  intros added w'. subst added w'.
  pose proof (addExpense_offline_state r env w Hv Hoff) as Hst.
  assert (Hf : fetches (snd (addExpense r env w)) = fetches w).
  { destruct Hv as (Ht & Ha & Hn & Hp).
    unfold addExpense, saveExpenses.
    rewrite (truthy_true _ Ht), (truthy_true _ Ha), Hn, Hp, Hoff. simpl.
    unfold_prims. simpl.
    destruct (setItemFails env (setItems w)); reflexivity. }
  assert (Hlocal : isOnline (nextRender (snd (addExpense r env w))) = false \/
                   syncedOf (lookup (tmpId env)
                               (expenses (nextRender (snd (addExpense r env w)))))
                   = false).
  { right. unfold nextRender. rewrite Hst. simpl.
    now rewrite String.eqb_refl. }
  destruct (deleteExpense_local_branch _ (tmpId env) env'
              (snd (addExpense r env w)) Hlocal) as (Hcol & Hfet).
  rewrite Hcol, Hfet, Hf. split; [| reflexivity].
  unfold nextRender. rewrite Hst. simpl.
  rewrite String.eqb_refl. simpl.
  now apply without_absent.
Qed.

Lemma add_then_delete_restores_witness :
  valid Scenario.coffeeAfterTeaOffline /\
  isOnline Scenario.coffeeAfterTeaOffline = false /\
  expenses (nextRender (snd (addExpense Scenario.coffeeAfterTeaOffline
                               Sample.unreachable
                               (worldOf Scenario.coffeeAfterTeaOffline None))))
  = [Sample.coffeeRecord; Sample.pendingTea] /\
  expenses (state (snd (deleteExpense
                          (nextRender (snd (addExpense Scenario.coffeeAfterTeaOffline
                                              Sample.unreachable
                                              (worldOf Scenario.coffeeAfterTeaOffline None))))
                          (tmpId Sample.unreachable) Sample.unreachable
                          (snd (addExpense Scenario.coffeeAfterTeaOffline
                                  Sample.unreachable
                                  (worldOf Scenario.coffeeAfterTeaOffline None))))))
  = [Sample.pendingTea].
Proof.
  assert (Hv : valid Scenario.coffeeAfterTeaOffline)
    by (repeat split; simpl; discriminate).
  assert (Hfresh : forall exp,
            In exp (expenses Scenario.coffeeAfterTeaOffline) ->
            Expense.id exp <> tmpId Sample.unreachable).
  { intros exp [<- | []]. vm_compute. discriminate. }
  split; [exact Hv |]. split; [reflexivity |]. split; [reflexivity |].
  exact (proj1 (add_then_delete_restores Scenario.coffeeAfterTeaOffline
                  Sample.unreachable Sample.unreachable
                  (worldOf Scenario.coffeeAfterTeaOffline None)
                  Hv eq_refl Hfresh)).
Defined.

(** *** Loading: cache and reload *)

Lemma filter_unsynced_markSynced (l : list Expense.t) :
  filter Expense.unsynced (map Expense.markSynced l) = [].
Proof. induction l as [|x l IH]; simpl; auto. Qed.

(** X9: when the reload is answered ok with [status: true] and a list,
    the collection becomes that list in the backend's order, with the
    same ids and every record synced, so the unsynced count of the next
    render is zero; this holds whether or not the local write that
    follows succeeds. *)
Theorem loadDataFromDatabase_marks_all (env : Env) (w : World)
    (j : Json) (list : list Expense.t)
    (Hnet : net env (fetches w) = Arrived (mkResponse true (Some j)))
    (Hstatus : status j = true) (Hlist : expenseList j = Some list) :
  let w' := snd (loadDataFromDatabase env w) in
  expenses (state w') = map Expense.markSynced list /\
  map Expense.id (expenses (state w')) = map Expense.id list /\
  unsyncedCount (nextRender w') = 0.
Proof.
  intros w'.
  assert (E : expenses (state w') = map Expense.markSynced list).
  { subst w'. unfold loadDataFromDatabase. unfold_prims. simpl.
    rewrite Hnet. simpl. rewrite Hstatus, Hlist. simpl.
    destruct (setItemFails env (setItems w)); reflexivity. }
  split; [exact E |]. split.
  - rewrite E, map_map. reflexivity.
  - unfold unsyncedCount, nextRender. rewrite E, filter_unsynced_markSynced.
    reflexivity.
Qed.

Lemma loadDataFromDatabase_marks_all_witness :
  net Scenario.listing 0
  = Arrived (mkResponse true
               (Some (mkJson true (Some [Sample.rent; Sample.lunch]) (Some 42%Z) None))) /\
  unsyncedCount (nextRender (snd (loadDataFromDatabase Scenario.listing
                                    (worldOf Sample.firstRender None)))) = 0.
Proof.
  split; [reflexivity |].
  exact (proj2 (proj2
    (loadDataFromDatabase_marks_all Scenario.listing
       (worldOf Sample.firstRender None)
       (mkJson true (Some [Sample.rent; Sample.lunch]) (Some 42%Z) None)
       [Sample.rent; Sample.lunch] eq_refl eq_refl eq_refl))).
Defined.

Lemma parseStored_markSynced (l : list Expense.t) :
  (forall exp, In exp l ->
               Js.throughJson (Expense.amount exp) = Expense.amount exp) ->
  parseStored (map Expense.markSynced l) = map Expense.markSynced l.
Proof.
  intros H. unfold parseStored. rewrite map_map. apply map_ext_in.
  intros exp Hin. unfold Expense.throughJson, Expense.markSynced. simpl.
  now rewrite (H exp Hin).
Qed.

(** X10: round trip through the local store.  An online [loadExpenses]
    got a list and wrote it; the app starts again, so the collection is
    empty and only the local store is left; [loadExpenses] then runs
    from an offline render, or from an online one whose fetch throws,
    and its read succeeds.  The collection it shows is the stored list
    parsed back from JSON: exactly the collection of the first load when
    every returned amount is one JSON keeps (a finite number or null). *)
Theorem load_online_then_offline (r r2 : Render) (env env2 : Env) (w : World)
    (j : Json) (list : list Expense.t)
    (Hon : isOnline r = true)
    (Hnet : net env (fetches w) = Arrived (mkResponse true (Some j)))
    (Hstatus : status j = true) (Hlist : expenseList j = Some list)
    (Hwrite : setItemFails env (setItems w) = false)
    (Hdown : isOnline r2 = false \/ throws (net env2 (S (fetches w))) = true)
    (Hread : getItemFails env2 (getItems w) = false) :
  let loaded := snd (loadExpenses r env w) in
  let w' := snd (loadExpenses r2 env2 (restart loaded)) in
  expenses (state loaded) = map Expense.markSynced list /\
  expenses (state (restart loaded)) = [] /\
  expenses (state w') = parseStored (expenses (state loaded)) /\
  ((forall exp, In exp list ->
                Js.throughJson (Expense.amount exp) = Expense.amount exp) ->
   expenses (state w') = expenses (state loaded)).
Proof.
  intros loaded w'.
  assert (E : loaded =
              mkWorld (mkRender (map Expense.markSynced list) (title (state w))
                         (amount (state w)) (category (state w))
                         (isOnline (state w)) false)
                      (Some (map Expense.markSynced list))
                      (trace w ++ [LoadExpenses; SetItem (map Expense.markSynced list)])
                      (S (fetches w)) (probes w) (S (setItems w)) (getItems w)).
  { subst loaded. unfold loadExpenses, loadDataFromDatabase. rewrite Hon.
    unfold_prims. simpl. rewrite Hnet. simpl. rewrite Hstatus, Hlist. simpl.
    rewrite Hwrite. simpl. now rewrite <- app_assoc. }
  assert (E' : expenses (state w') = parseStored (map Expense.markSynced list)).
  { subst w'. rewrite E. unfold restart, loadExpenses, loadDataFromDatabase, throws in *.
    unfold_prims. simpl.
    destruct (isOnline r2) eqn:Hr2; simpl.
    - destruct Hdown as [Hd | Hd]; [discriminate |].
      destruct (net env2 (S (fetches w))) as [|[[|] [j2|]]]; simpl in *;
        try discriminate; rewrite Hread; reflexivity.
    - rewrite Hread. reflexivity. }
  rewrite E. simpl. repeat split; auto.
  intros Hkept. rewrite E'. now apply parseStored_markSynced.
Qed.

Lemma load_online_then_offline_witness :
  isOnline Sample.firstRender = true /\
  throws (net Sample.unreachable 1) = true /\
  expenses (state (snd (loadExpenses Sample.firstRender Sample.unreachable
                          (restart (snd (loadExpenses Sample.firstRender
                                           Scenario.listing
                                           (worldOf Sample.firstRender None)))))))
  = [Expense.markSynced Sample.rent; Expense.markSynced Sample.lunch].
Proof.
  split; [reflexivity |]. split; [reflexivity |].
  exact (proj1 (proj2 (proj2
    (load_online_then_offline Sample.firstRender Sample.firstRender
       Scenario.listing Sample.unreachable (worldOf Sample.firstRender None)
       (mkJson true (Some [Sample.rent; Sample.lunch]) (Some 42%Z) None)
       [Sample.rent; Sample.lunch]
       eq_refl eq_refl eq_refl eq_refl eq_refl (or_intror eq_refl) eq_refl)))).
Defined.

(** X11: from an offline render, [loadExpenses] makes no request and
    never writes the local store; it only reads it (a second time when
    the first read rejects). *)
Theorem loadExpenses_offline_reads_only (r : Render) (env : Env) (w : World)
    (Hoff : isOnline r = false) :
  let w' := snd (loadExpenses r env w) in
  fetches w' = fetches w /\
  storage w' = storage w /\
  setItems w' = setItems w /\
  getItems w' = (if getItemFails env (getItems w)
                 then S (S (getItems w)) else S (getItems w)) /\
  isOnline (state w') = isOnline (state w).
Proof.
  intros w'. subst w'.
  unfold loadExpenses. rewrite Hoff. unfold_prims. unfold option_map. simpl.
  repeat (step_io; simpl); repeat split.
Qed.

Lemma loadExpenses_offline_reads_only_witness :
  isOnline (Sample.teaAndRent false) = false /\
  fetches (snd (loadExpenses (Sample.teaAndRent false) Sample.unreachable
                  (worldOf (Sample.teaAndRent false) None))) = 0.
Proof.
  split; [reflexivity |].
  exact (proj1 (loadExpenses_offline_reads_only (Sample.teaAndRent false)
                  Sample.unreachable (worldOf (Sample.teaAndRent false) None)
                  eq_refl)).
Defined.

(** *** The connectivity flag *)

Lemma saveExpenses_stays_offline (r : Render) (l : list Expense.t) env w :
  isOnline (state w) = false ->
  isOnline (state (snd (saveExpenses r l env w))) = false.
Proof.
  intros Hoff. unfold saveExpenses, tryCatch, bind, setItem, toast, emit, ret.
  destruct (setItemFails env (setItems w)); simpl; [exact Hoff |].
  destruct (isOnline r); simpl; [| exact Hoff].
  match goal with
  | |- context [syncWithBackend r l env ?w1] =>
      pose proof (syncWithBackend_normal r l env w1) as Hn;
      destruct (syncWithBackend_spec r l env w1) as (_ & _ & _ & _ & Hmono & _);
      destruct (syncWithBackend r l env w1) as [c w2]
  end.
  simpl in *. subst c. simpl. auto.
Qed.

(** X12: only the probe can set the connectivity flag to true.  If the
    stored flag is false, it is still false after [loadExpenses],
    [addExpense] and [deleteExpense], and after [retrySync] from an
    online render (which does not probe), whatever the backend answers. *)
Theorem only_the_probe_goes_online (r : Render) (id : string)
    (env : Env) (w : World) (Hoff : isOnline (state w) = false) :
  isOnline (state (snd (loadExpenses r env w))) = false /\
  isOnline (state (snd (addExpense r env w))) = false /\
  isOnline (state (snd (deleteExpense r id env w))) = false /\
  (isOnline r = true -> isOnline (state (snd (retrySync r env w))) = false).
Proof.
  repeat split.
  - unfold loadExpenses, loadDataFromDatabase. unfold_prims.
    unfold option_map. simpl.
    repeat (step_io; simpl); auto.
  - unfold addExpense.
    destruct (negb (Js.truthy (Js.trim (title r)))
              || negb (Js.truthy (Js.trim (amount r)))); [exact Hoff |].
    destruct (Js.isNaN (Js.parseFloat (amount r))
              || Js.le0 (Js.parseFloat (amount r))); [exact Hoff |].
    unfold_prims. simpl.
    match goal with
    | |- context [saveExpenses r ?l env ?w1] =>
        pose proof (saveExpenses_normal r l env w1) as Hn;
        pose proof (saveExpenses_stays_offline r l env w1 Hoff) as Hs;
        destruct (saveExpenses r l env w1) as [c w2]
    end.
    simpl in *. subst c. simpl. exact Hs.
  - unfold deleteExpense, loadDataFromDatabase. unfold_prims. simpl.
    destruct (isOnline r && syncedOf _); simpl;
      repeat (step_io; simpl); auto.
  - intros Hon. unfold retrySync. rewrite Hon. simpl.
    unfold tryCatch, bind, ret, toast, emit.
    pose proof (syncWithBackend_normal r (expenses r) env w) as Hn.
    destruct (syncWithBackend_spec r (expenses r) env w)
      as (_ & _ & _ & _ & Hmono & _).
    destruct (syncWithBackend r (expenses r) env w) as [c w1].
    simpl in *. subst c. simpl. auto.
Qed.

Lemma only_the_probe_goes_online_witness :
  isOnline (state (worldOf (Sample.coffee false) None)) = false /\
  isOnline (state (snd (addExpense (Sample.coffee true) Scenario.listing
                          (worldOf (Sample.coffee false) None)))) = false.
Proof.
  split; [reflexivity |].
  exact (proj1 (proj2
    (only_the_probe_goes_online (Sample.coffee true) "tmp-1" Scenario.listing
       (worldOf (Sample.coffee false) None) eq_refl))).
Defined.

(** *** Confirming a push *)

(** X13: when a create is answered ok with [status: true] for a record
    the render's list holds, the collection becomes the render's list in
    which each record with that id is the same record with synced=true
    and the returned id as backendId, and every other record is as it
    was; the ids and their order do not change. *)
Theorem saveExpenseToBackend_marks (r : Render) (e : Expense.t)
    (env : Env) (w : World) (j : Json)
    (Hin : In e (expenses r))
    (Hnet : net env (fetches w) = Arrived (mkResponse true (Some j)))
    (Hstatus : status j = true) :
  let final := expenses (state (snd (saveExpenseToBackend r e env w))) in
  final = map (fun exp =>
                 if String.eqb (Expense.id exp) (Expense.id e)
                 then Expense.mk (Expense.id exp) (Expense.title exp)
                                 (Expense.amount exp) (Expense.category exp)
                                 (Expense.date exp) (Some true) (jsonId j)
                 else exp)
              (expenses r) /\
  In (Expense.mk (Expense.id e) (Expense.title e) (Expense.amount e)
                 (Expense.category e) (Expense.date e) (Some true) (jsonId j))
     final /\
  (forall exp, In exp final -> Expense.id exp = Expense.id e ->
               Expense.synced exp = Some true /\
               Expense.backendId exp = jsonId j) /\
  (forall exp, In exp (expenses r) -> Expense.id exp <> Expense.id e ->
               In exp final) /\
  map Expense.id final = map Expense.id (expenses r).
Proof.
  intros final.
  assert (E : final = map (fun exp =>
                 if String.eqb (Expense.id exp) (Expense.id e)
                 then Expense.mk (Expense.id exp) (Expense.title exp)
                                 (Expense.amount exp) (Expense.category exp)
                                 (Expense.date exp) (Some true) (jsonId j)
                 else exp)
              (expenses r)).
  { subst final. unfold saveExpenseToBackend. unfold_prims. simpl.
    rewrite Hnet. simpl. rewrite Hstatus. simpl.
    destruct (setItemFails env (setItems w)); reflexivity. }
  split; [exact E |]. rewrite E.
  split; [| split; [| split]].
  - apply in_map_iff. exists e. split; [| exact Hin].
    now rewrite String.eqb_refl.
  - intros exp Hexp Hid.
    apply in_map_iff in Hexp. destruct Hexp as (x & Hx & _).
    destruct (String.eqb_spec (Expense.id x) (Expense.id e)) as [Heq | Hne];
      subst exp; [split; reflexivity | contradiction].
  - intros exp Hexp Hne. apply in_map_iff. exists exp. split; [| exact Hexp].
    apply String.eqb_neq in Hne. now rewrite Hne.
  - rewrite map_map. apply map_ext. intros exp.
    now destruct (String.eqb (Expense.id exp) (Expense.id e)).
Qed.

Lemma saveExpenseToBackend_marks_witness :
  In Sample.pendingTea (expenses (Sample.teaAndRent true)) /\
  expenses (state (snd (saveExpenseToBackend (Sample.teaAndRent true)
                          Sample.pendingTea Sample.createdThenDown
                          (worldOf (Sample.teaAndRent true) None))))
  = [Expense.mk "tmp-2" "Tea" (Js.Finite 2) "Food" "11/2/2026"
                (Some true) (Some 42%Z);
     Sample.syncedRent].
Proof.
  assert (H : In Sample.pendingTea (expenses (Sample.teaAndRent true)))
    by (simpl; now left).
  split; [exact H |].
  exact (proj1 (saveExpenseToBackend_marks (Sample.teaAndRent true)
                  Sample.pendingTea Sample.createdThenDown
                  (worldOf (Sample.teaAndRent true) None)
                  (mkJson true None (Some 42%Z) None) H eq_refl eq_refl)).
Defined.

(** *** Retrying the sync: the two edges *)

(** X14: from an offline render, [retrySync] only probes and shows the
    offline warning: these are its two events, whatever the probe finds;
    the stored flag becomes what the probe found, and the collection and
    the local store are untouched. *)
Theorem retrySync_offline_only_probes (r : Render) (env : Env) (w : World)
    (Hoff : isOnline r = false) :
  let w' := snd (retrySync r env w) in
  trace w' = trace w ++
             [Probe; ToastShow WARNING "Offline" "No internet connection available"] /\
  isOnline (state w') = probeResult env w /\
  expenses (state w') = expenses (state w) /\
  storage w' = storage w.
Proof.
  intros w'. subst w'.
  unfold retrySync, checkNetworkStatus, probeResult. rewrite Hoff.
  unfold_prims. simpl.
  repeat (step_io; simpl); rewrite <- app_assoc; repeat split.
Qed.

Lemma retrySync_offline_only_probes_witness :
  isOnline (Sample.teaAndRent false) = false /\
  probeResult Scenario.backOnline (worldOf (Sample.teaAndRent false) None) = true /\
  pushes (trace (snd (retrySync (Sample.teaAndRent false) Scenario.backOnline
                        (worldOf (Sample.teaAndRent false) None)))) = [].
Proof.
  split; [reflexivity |]. split; [reflexivity |].
  rewrite (proj1 (retrySync_offline_only_probes (Sample.teaAndRent false)
                    Scenario.backOnline (worldOf (Sample.teaAndRent false) None)
                    eq_refl)).
  reflexivity.
Defined.

Lemma filter_unsynced_none (l : list Expense.t) :
  (forall exp, In exp l -> Expense.unsynced exp = false) ->
  filter Expense.unsynced l = [].
Proof.
  induction l as [|x l IH]; intros H; simpl; [reflexivity |].
  rewrite (H x (or_introl eq_refl)). apply IH.
  intros exp Hin. apply H. now right.
Qed.

(** X15: from an online render in which every record is synced,
    [retrySync] makes no request and changes nothing: its only effect is
    the sync-complete toast. *)
Theorem retrySync_nothing_pending (r : Render) (env : Env) (w : World)
    (Hon : isOnline r = true)
    (Hall : forall exp, In exp (expenses r) -> Expense.unsynced exp = false) :
  retrySync r env w
  = (Normal tt,
     emit (ToastShow SUCCESS "Sync Complete" "All expenses synced with server") w).
Proof.
  unfold retrySync, syncWithBackend. rewrite Hon.
  rewrite (filter_unsynced_none _ Hall). reflexivity.
Qed.

Lemma retrySync_nothing_pending_witness :
  isOnline Sample.onlyRent = true /\
  fetches (snd (retrySync Sample.onlyRent Sample.unreachable
                  (worldOf Sample.onlyRent None))) = 0.
Proof.
  split; [reflexivity |].
  rewrite (retrySync_nothing_pending Sample.onlyRent Sample.unreachable
             (worldOf Sample.onlyRent None) eq_refl).
  - reflexivity.
  - intros exp [<- | []]. reflexivity.
Defined.

(** *** A retry that gets through *)

Lemma forOf_saveExpenseToBackend_fetches (r : Render) (env : Env) :
  forall (l : list Expense.t) (w : World),
    fst (forOf l (saveExpenseToBackend r) env w) = Normal tt ->
    fetches (snd (forOf l (saveExpenseToBackend r) env w)) = fetches w + length l.
Proof.
  induction l as [|x l IH]; intros w Hn; simpl in *.
  - now rewrite Nat.add_0_r.
  - unfold bind in *.
    pose proof (saveExpenseToBackend_spec r x env w) as Hx. simpl in Hx.
    destruct Hx as (_ & Hf & _).
    destruct (saveExpenseToBackend r x env w) as [[[]|] w1]; simpl in *;
      [| discriminate].
    rewrite (IH w1 Hn), Hf. lia.
Qed.

Lemma loadDataFromDatabase_collection (env : Env) (w : World)
    (j : Json) (list : list Expense.t) :
  net env (fetches w) = Arrived (mkResponse true (Some j)) ->
  status j = true -> expenseList j = Some list ->
  expenses (state (snd (loadDataFromDatabase env w)))
  = map Expense.markSynced list.
Proof.
  intros Hnet Hstatus Hlist.
  unfold loadDataFromDatabase. unfold_prims. simpl.
  rewrite Hnet. simpl. rewrite Hstatus, Hlist. simpl.
  destruct (setItemFails env (setItems w)); reflexivity.
Qed.

(** X16: from an online render with at least one unsynced record, when
    no push of the batch throws and the reload that follows (the fetch
    right after the batch) returns a list, [retrySync] leaves the
    collection equal to that list marked synced, so nothing is left
    unsynced in the next render. *)
Theorem retrySync_through (r : Render) (env : Env) (w : World)
    (j : Json) (list : list Expense.t)
    (Hon : isOnline r = true)
    (Hpending : filter Expense.unsynced (expenses r) <> [])
    (Hnone : firstThrow env (fetches w) (setItems w)
               (length (filter Expense.unsynced (expenses r))) = None)
    (Hnet : net env (fetches w + length (filter Expense.unsynced (expenses r)))
            = Arrived (mkResponse true (Some j)))
    (Hstatus : status j = true) (Hlist : expenseList j = Some list) :
  let w' := snd (retrySync r env w) in
  expenses (state w') = map Expense.markSynced list /\
  unsyncedCount (nextRender w') = 0.
Proof.
  intros w'.
  assert (E : expenses (state w') = map Expense.markSynced list).
  { subst w'. unfold retrySync, syncWithBackend. rewrite Hon. simpl.
    remember (filter Expense.unsynced (expenses r)) as batch eqn:Hbatch.
    destruct batch as [|b batch']; [congruence |].
    change (length (b :: batch') =? 0)%nat with false. cbv iota.
    unfold tryCatch, bind, ret, toast, emit.
    pose proof (forOf_saveExpenseToBackend_spec r env (b :: batch') w) as Hspec.
    cbv zeta in Hspec. destruct Hspec as (new & _ & _ & _ & Hmatch & _).
    rewrite Hnone in Hmatch. destruct Hmatch as (Hnormal & _).
    pose proof (forOf_saveExpenseToBackend_fetches r env (b :: batch') w Hnormal)
      as Hfetches.
    destruct (forOf (b :: batch') (saveExpenseToBackend r) env w) as [c w1].
    simpl fst in Hnormal. simpl snd in Hfetches. subst c.
    rewrite <- Hfetches in Hnet.
    pose proof (loadDataFromDatabase_collection env w1 j list Hnet Hstatus Hlist)
      as Hcol.
    destruct (loadDataFromDatabase env w1) as [[[]|] w2]; simpl in *; exact Hcol. }
  split; [exact E |].
  unfold unsyncedCount, nextRender. rewrite E, filter_unsynced_markSynced.
  reflexivity.
Qed.

Lemma retrySync_through_witness :
  isOnline (Sample.teaAndRent true) = true /\
  firstThrow Scenario.listing 0 0
    (length (filter Expense.unsynced (expenses (Sample.teaAndRent true)))) = None /\
  expenses (state (snd (retrySync (Sample.teaAndRent true) Scenario.listing
                          (worldOf (Sample.teaAndRent true) None))))
  = [Expense.markSynced Sample.rent; Expense.markSynced Sample.lunch].
Proof.
  split; [reflexivity |]. split; [reflexivity |].
  assert (Hpending : filter Expense.unsynced (expenses (Sample.teaAndRent true)) <> [])
    by (simpl; discriminate).
  exact (proj1 (retrySync_through (Sample.teaAndRent true) Scenario.listing
                  (worldOf (Sample.teaAndRent true) None)
                  (mkJson true (Some [Sample.rent; Sample.lunch]) (Some 42%Z) None)
                  [Sample.rent; Sample.lunch]
                  eq_refl Hpending eq_refl eq_refl eq_refl eq_refl)).
Defined.

(** *** Which identifier a remote delete carries *)

(** X17: when the flag is online and the record found is synced, the
    first event of [deleteExpense] is one delete request; it carries the
    record's backend id when that is present and not zero, and the
    record's own id otherwise. *)
Theorem deleteExpense_remote_key (r : Render) (id : string)
    (env : Env) (w : World) (found : Expense.t)
    (Hon : isOnline r = true)
    (Hfound : lookup id (expenses r) = Some found)
    (Hsynced : Expense.synced found = Some true) :
  exists key rest,
    trace (snd (deleteExpense r id env w)) = trace w ++ DeleteExpenses key :: rest /\
    match Expense.backendId found with
    | Some n => if (n =? 0)%Z then key = ById id else key = ByBackendId n
    | None => key = ById id
    end.
Proof.
  assert (Hext : Extends loadDataFromDatabase) by apply Extends_loadDataFromDatabase.
  unfold deleteExpense. fold (lookup id (expenses r)).
  rewrite Hfound, Hon. unfold syncedOf, Expense.unsynced. rewrite Hsynced.
  exists (deleteIdOf (Some found) id).
  unfold_prims. simpl.
  assert (Hkey : match Expense.backendId found with
                 | Some n => if (n =? 0)%Z
                             then deleteIdOf (Some found) id = ById id
                             else deleteIdOf (Some found) id = ByBackendId n
                 | None => deleteIdOf (Some found) id = ById id
                 end).
  { unfold deleteIdOf. destruct (Expense.backendId found) as [[|p|p]|]; reflexivity. }
  destruct (net env (fetches w)) as [|[[|] [jd|]]]; simpl;
    try (eexists; split; [rewrite <- !app_assoc; reflexivity | exact Hkey]).
  destruct (status jd); simpl;
    [| eexists; split; [rewrite <- !app_assoc; reflexivity | exact Hkey]].
  match goal with
  | |- context [loadDataFromDatabase env ?w1] =>
      destruct (Hext env w1) as (new & Hnew);
      destruct (loadDataFromDatabase env w1) as [[[]|] w2]
  end; simpl in *;
    (eexists; split; [rewrite ?Hnew, <- !app_assoc; reflexivity | exact Hkey]).
Qed.

Lemma deleteExpense_remote_key_witness :
  isOnline Sample.onlyRent = true /\
  lookup "tmp-1" (expenses Sample.onlyRent) = Some Sample.syncedRent /\
  exists key rest,
    trace (snd (deleteExpense Sample.onlyRent "tmp-1" Sample.serverError
                  (worldOf Sample.onlyRent None)))
    = [] ++ DeleteExpenses key :: rest /\
    key = ByBackendId 7.
Proof.
  split; [reflexivity |]. split; [reflexivity |].
  destruct (deleteExpense_remote_key Sample.onlyRent "tmp-1" Sample.serverError
              (worldOf Sample.onlyRent None) Sample.syncedRent
              eq_refl eq_refl eq_refl) as (key & rest & Htr & Hkey).
  exists key, rest. split; [exact Htr | exact Hkey].
Defined.

(** *** What the local store gives back after a restart *)

(** X18: a record added offline and written to the local store comes
    back after a restart, when [loadExpenses] cannot reach the backend
    (offline render, or a fetch that throws) and its read succeeds: the
    collection is the written list parsed back from JSON, the new record
    first; each record is as it was except that an amount that is not a
    finite number has become null. *)
Theorem add_then_restart_reads_back (r r2 : Render) (env env2 : Env) (w : World)
    (Hv : valid r) (Hoff : isOnline r = false)
    (Hwrite : setItemFails env (setItems w) = false)
    (Hdown : isOnline r2 = false \/ throws (net env2 (fetches w)) = true)
    (Hread : getItemFails env2 (getItems w) = false) :
  let added := snd (addExpense r env w) in
  let w' := snd (loadExpenses r2 env2 (restart added)) in
  expenses (state w')
  = Expense.throughJson (newExpense r env) :: parseStored (expenses r) /\
  Expense.amount (Expense.throughJson (newExpense r env))
  = (if Js.isFinite (Js.parseFloat (amount r))
     then Js.Num (Js.parseFloat (amount r)) else Js.Null).
Proof.
  intros added w'. split.
  - assert (E : added =
                mkWorld (mkRender (newExpense r env :: expenses r) "" "" "Food"
                           (isOnline (state w)) (isLoading (state w)))
                        (Some (newExpense r env :: expenses r))
                        (trace w ++ [SetItem (newExpense r env :: expenses r);
                                     ToastShow SUCCESS "Success"
                                       "Expense added successfully"])
                        (fetches w) (probes w) (S (setItems w)) (getItems w)).
    { subst added. destruct Hv as (Ht & Ha & Hn & Hp).
      unfold addExpense, saveExpenses.
      rewrite (truthy_true _ Ht), (truthy_true _ Ha), Hn, Hp, Hoff. simpl.
      unfold_prims. simpl. rewrite Hwrite. simpl.
      now rewrite <- !app_assoc. }
    subst w'. rewrite E.
    unfold restart, loadExpenses, loadDataFromDatabase, throws in *.
    unfold_prims. simpl.
    destruct (isOnline r2) eqn:Hr2; simpl.
    + destruct Hdown as [Hd | Hd]; [discriminate |].
      destruct (net env2 (fetches w)) as [|[[|] [j2|]]]; simpl in *;
        try discriminate; rewrite Hread; reflexivity.
    + rewrite Hread. reflexivity.
  - simpl. destruct (Js.parseFloat (amount r)); reflexivity.
Qed.

Lemma add_then_restart_reads_back_witness :
  valid Scenario.hugeAmount /\
  isOnline Scenario.hugeAmount = false /\
  Expense.amount (newExpense Scenario.hugeAmount Sample.unreachable)
  = Js.Num (Js.Infinity false) /\
  map Expense.amount
      (expenses (state (snd (loadExpenses Sample.firstRender Sample.unreachable
                               (restart (snd (addExpense Scenario.hugeAmount
                                                Sample.unreachable
                                                (worldOf Scenario.hugeAmount None))))))))
  = [Js.Null].
Proof.
  assert (Hv : valid Scenario.hugeAmount)
    by (repeat split; vm_compute; discriminate).
  split; [exact Hv |]. split; [reflexivity |]. split; [reflexivity |].
  rewrite (proj1 (add_then_restart_reads_back Scenario.hugeAmount
                    Sample.firstRender Sample.unreachable Sample.unreachable
                    (worldOf Scenario.hugeAmount None)
                    Hv eq_refl eq_refl (or_intror eq_refl) eq_refl)).
  reflexivity.
Defined.
